(** * MAGNIFIER: capture source, viewport tracker and compositor

    A shallow embedding of the C++ sources [capture_engine.cpp], [app.cpp],
    [magnifier_window.cpp] and [tracking_manager.cpp].

    - C++ [float] is IEEE 754 binary32 and [double] is binary64; both are the
      executable [spec_float] model of the standard library, instantiated at
      precision 24 / 53, with round-to-nearest-even.
    - [LONG] / [int] values are [Z]; [ULONGLONG] tick counts are [Z] with the
      64-bit wrap-around of unsigned subtraction written out.
    - Member functions take the object state as a record and return the new
      state; calls to the operating system (tick counter, foreground window,
      DXGI results) are explicit arguments. *)

From Stdlib Require Import ZArith List Bool Lia String Ascii.
From Stdlib Require Import Floats.SpecFloat.
From Stdlib Require DecimalString.
Import ListNotations.
Open Scope Z_scope.

(* ================================================================== *)
(** ** IEEE 754 binary floating point *)

Section Format.

Variables prec emax : Z.

Definition fl_of_Z (z : Z) : spec_float := binary_normalize prec emax z 0 false.

(** The signed integer mantissa of a finite value. *)
Definition signed (s : bool) (m : positive) : Z := cond_Zopp s (Zpos m).

(** [std::floor] and [std::ceil]. A finite value is [signed s m * 2^e]; with
    [e >= 0] it is already integral. *)
Definition fl_floor (x : spec_float) : spec_float :=
  match x with
  | S754_finite s m e =>
      if 0 <=? e then x
      else let q := Z.shiftr (signed s m) (- e) in
           if q =? 0 then S754_zero s else fl_of_Z q
  | _ => x
  end.

Definition fl_ceil (x : spec_float) : spec_float :=
  match x with
  | S754_finite s m e =>
      if 0 <=? e then x
      else let q := - Z.shiftr (- signed s m) (- e) in
           if q =? 0 then S754_zero s else fl_of_Z q
  | _ => x
  end.

(** [std::round]: to the nearest integer, halfway cases away from zero. *)
Definition fl_round (x : spec_float) : spec_float :=
  match x with
  | S754_finite s m e =>
      if 0 <=? e then x
      else let q := Z.shiftr (2 * Zpos m + 2 ^ (- e)) (- e + 1) in
           if q =? 0 then S754_zero s else fl_of_Z (cond_Zopp s q)
  | _ => x
  end.

End Format.

(** Truncation toward zero, the integer part used by the conversions to
    [LONG] and [int]. *)
Definition fl_trunc (x : spec_float) : option Z :=
  match x with
  | S754_zero _ => Some 0
  | S754_finite s m e =>
      Some (if 0 <=? e then signed s m * 2 ^ e
            else Z.quot (signed s m) (2 ^ (- e)))
  | _ => None
  end.

Definition is_nan (a : spec_float) : bool :=
  match a with S754_nan => true | _ => false end.

(** C++ [float]: binary32. *)
Module F32.

Definition prec : Z := 24.
Definition emax : Z := 128.
Definition float := spec_float.

Definition of_Z : Z -> float := fl_of_Z prec emax.
Definition add : float -> float -> float := SFadd prec emax.
Definition sub : float -> float -> float := SFsub prec emax.
Definition mul : float -> float -> float := SFmul prec emax.
Definition div : float -> float -> float := SFdiv prec emax.
Definition sqrt : float -> float := SFsqrt prec emax.
Definition abs : float -> float := SFabs.
Definition floor : float -> float := fl_floor prec emax.
Definition ceil : float -> float := fl_ceil prec emax.
Definition round : float -> float := fl_round prec emax.

(** The comparison operators of C++: every comparison with a NaN is false. *)
Definition ltb (a b : float) : bool := SFltb a b.
Definition leb (a b : float) : bool := SFleb a b.
Definition gtb (a b : float) : bool := SFltb b a.
Definition geb (a b : float) : bool := SFleb b a.

(** A decimal literal [n/d] with [n] and [d] exactly representable: the
    correctly rounded quotient is the correctly rounded literal. *)
Definition lit (n d : Z) : float := div (of_Z n) (of_Z d).

(** [std::min(a, b)] is [(b < a) ? b : a]; [std::max(a, b)] is
    [(a < b) ? b : a]; [std::clamp(v, lo, hi)] is
    [(v < lo) ? lo : (hi < v) ? hi : v]. *)
Definition min (a b : float) : float := if ltb b a then b else a.
Definition max (a b : float) : float := if ltb a b then b else a.
Definition clamp (v lo hi : float) : float :=
  if ltb v lo then lo else if ltb hi v then hi else v.

End F32.

(** C++ [double]: binary64. *)
Module F64.

Definition prec : Z := 53.
Definition emax : Z := 1024.
Definition float := spec_float.

Definition of_Z : Z -> float := fl_of_Z prec emax.
Definition mul : float -> float -> float := SFmul prec emax.
Definition div : float -> float -> float := SFdiv prec emax.
Definition round : float -> float := fl_round prec emax.
Definition lit (n d : Z) : float := div (of_Z n) (of_Z d).

End F64.

(** [static_cast<float>(double)]. *)
Definition float_of_double (x : F64.float) : F32.float :=
  match x with
  | S754_finite s m e =>
      binary_normalize F32.prec F32.emax (signed s m) e s
  | _ => x
  end.

(** [static_cast<LONG>(float)] and [static_cast<int>(float)]: the integer part
    when it fits in 32 bits. Outside that range the conversion is undefined in
    C++; the x64 conversion instruction yields the value [0x80000000]. *)
Definition INT_MIN : Z := - 2 ^ 31.
Definition INT_MAX : Z := 2 ^ 31 - 1.

Definition long_of_float (x : F32.float) : Z :=
  match fl_trunc x with
  | Some z => if (INT_MIN <=? z) && (z <=? INT_MAX) then z else INT_MIN
  | None => INT_MIN
  end.

(** [std::lround(double)]. *)
Definition lround (x : F64.float) : Z :=
  match fl_trunc (F64.round x) with
  | Some z => if (INT_MIN <=? z) && (z <=? INT_MAX) then z else INT_MIN
  | None => INT_MIN
  end.

(** Two's complement wrap of [LONG] / [int] arithmetic, and the modular
    subtraction of [ULONGLONG] tick counts. *)
Definition wrap32 (z : Z) : Z := (z + 2 ^ 31) mod 2 ^ 32 - 2 ^ 31.
Definition sub64 (a b : Z) : Z := (a - b) mod 2 ^ 64.

(* ================================================================== *)
(** ** Windows value types *)

Record POINT := mkPOINT { pt_x : Z; pt_y : Z }.
Record RECT := mkRECT { left : Z; top : Z; right : Z; bottom : Z }.
Record SIZE := mkSIZE { cx : Z; cy : Z }.
Record FloatPoint := mkFloatPoint { fx : F32.float; fy : F32.float }.
Record FloatRect := mkFloatRect
  { fleft : F32.float; ftop : F32.float; fright : F32.float; fbottom : F32.float }.

Definition HMONITOR := Z.

(** [monitor_manager.h]: the fields of [MonitorInfo] the core reads. *)
Record MonitorInfo := mkMonitorInfo
  { handle : HMONITOR; bounds : RECT; scale : F64.float }.

(** [D3D11_TEXTURE2D_DESC]: the two fields the tracker reads ([UINT]). *)
Record TEXTURE2D_DESC := mkDesc { Width : Z; Height : Z }.

(** A 1920x1080 source monitor at 96 dpi, used in the scenarios below. *)
Definition monitor_1080p : MonitorInfo :=
  mkMonitorInfo 1 (mkRECT 0 0 1920 1080) (F64.of_Z 1).

(* ================================================================== *)
(** ** capture_engine.cpp *)

Module CaptureEngine.

(** [HRESULT] is a signed 32-bit value; [FAILED(hr)] is [hr < 0]. The two
    DXGI codes are those of the Windows SDK. *)
Definition HRESULT := Z.
Definition hresult_of_bits (u : Z) : HRESULT := wrap32 u.
Definition S_OK : HRESULT := 0.
Definition DXGI_ERROR_WAIT_TIMEOUT : HRESULT := hresult_of_bits 0x887A0027.
Definition DXGI_ERROR_ACCESS_LOST : HRESULT := hresult_of_bits 0x887A0026.
Definition FAILED (hr : HRESULT) : bool := hr <? 0.

(** What a call leaves behind besides the object state. *)
Inductive Effect :=
| LogError (msg : string)
| DuplReleaseFrame
| CopyResource.

(** The object. A COM pointer is modelled by whether it is set; the
    duplication session also remembers the output (monitor) it mirrors. *)
Record t := mk
  { device_ : bool;
    context_ : bool;
    duplication_ : option HMONITOR;
    staging_ : bool;
    current_frame_ : bool;
    frame_acquired_ : bool;
    output_desc_ : option HMONITOR;
    frame_desc_ : TEXTURE2D_DESC;
    source_monitor_ : option MonitorInfo;
    needs_reinitialize_ : bool }.

Definition NeedsReinitialize (c : t) : bool := needs_reinitialize_ c.

(** [CaptureFrame]: the staging texture handed to the compositor. *)
Record CaptureFrame := mkFrame { texture : bool }.

(** Answers of the platform to one [AcquireFrame]: the result of
    [AcquireNextFrame], whether the resource exposes a texture, and the
    description of that texture. *)
Record AcquireEnv := mkAcquireEnv
  { next_frame_hr : HRESULT; as_texture_ok : bool; texture_desc : TEXTURE2D_DESC }.

(** Answers of the platform to [EnsureDevice] and [CreateDuplication]. The
    adapter outputs are listed in enumeration order; [None] is an output whose
    [GetDesc] fails. *)
Record DeviceEnv := mkDeviceEnv
  { create_device_ok : bool;
    as_dxgi_device_ok : bool;
    get_adapter_ok : bool;
    outputs : list (option HMONITOR);
    as_output1_ok : bool;
    duplicate_output_ok : bool;
    mode_desc : TEXTURE2D_DESC;
    create_texture_ok : bool }.

Definition set_frame_released (c : t) : t :=
  mk (device_ c) (context_ c) (duplication_ c) (staging_ c) false false
     (output_desc_ c) (frame_desc_ c) (source_monitor_ c) (needs_reinitialize_ c).

Definition AcquireFrame (env : AcquireEnv) (c : t)
  : option CaptureFrame * t * list Effect :=
  match duplication_ c with
  | None => (None, c, [])
  | Some dup =>
      let '(c, fx0) :=
        if frame_acquired_ c then (set_frame_released c, [DuplReleaseFrame])
        else (c, []) in
      let hr := next_frame_hr env in
      if hr =? DXGI_ERROR_WAIT_TIMEOUT then (None, c, fx0)
      else if hr =? DXGI_ERROR_ACCESS_LOST then
        (None,
         mk (device_ c) (context_ c) None false false false
            (output_desc_ c) (frame_desc_ c) (source_monitor_ c) true,
         fx0 ++ [LogError "Desktop duplication access lost"])
      else if FAILED hr then
        (None,
         mk (device_ c) (context_ c) None false false false
            (output_desc_ c) (frame_desc_ c) (source_monitor_ c) true,
         fx0 ++ [LogError "AcquireNextFrame failed"])
      else if negb (as_texture_ok env) then
        (None, set_frame_released c,
         fx0 ++ [DuplReleaseFrame; LogError "Failed to query frame texture"])
      else
        (Some (mkFrame (staging_ c)),
         mk (device_ c) (context_ c) (duplication_ c) (staging_ c) false false
            (output_desc_ c) (texture_desc env) (source_monitor_ c)
            (needs_reinitialize_ c),
         fx0 ++ [CopyResource; DuplReleaseFrame])
  end.

Definition EnsureDevice (env : DeviceEnv) (c : t) : bool * t * list Effect :=
  if device_ c then (true, c, [])
  else if create_device_ok env then
    (true,
     mk true true (duplication_ c) (staging_ c) (current_frame_ c)
        (frame_acquired_ c) (output_desc_ c) (frame_desc_ c)
        (source_monitor_ c) (needs_reinitialize_ c), [])
  else (false, c, [LogError "D3D11CreateDevice failed"]).

(** The enumeration loop of [CreateDuplication]: the first output whose
    description names the source monitor. *)
Fixpoint match_output (h : HMONITOR) (outs : list (option HMONITOR)) : bool :=
  match outs with
  | [] => false
  | Some m :: rest => if m =? h then true else match_output h rest
  | None :: rest => match_output h rest
  end.

Definition CreateDuplication (env : DeviceEnv) (source : MonitorInfo) (c : t)
  : bool * t * list Effect :=
  if negb (as_dxgi_device_ok env) then (false, c, [])
  else if negb (get_adapter_ok env) then (false, c, [])
  else if negb (match_output (handle source) (outputs env)) then
    (false, c, [LogError "Matching output not found"])
  else
    let c1 := mk (device_ c) (context_ c) (duplication_ c) (staging_ c)
                 (current_frame_ c) (frame_acquired_ c) (Some (handle source))
                 (frame_desc_ c) (source_monitor_ c) (needs_reinitialize_ c) in
    if negb (as_output1_ok env) then (false, c1, [])
    else if negb (duplicate_output_ok env) then
      (false, c1, [LogError "DuplicateOutput failed"])
    else
      let c2 := mk (device_ c1) (context_ c1) (Some (handle source)) false
                   (current_frame_ c1) (frame_acquired_ c1) (output_desc_ c1)
                   (mode_desc env) (source_monitor_ c1) (needs_reinitialize_ c1) in
      if negb (create_texture_ok env) then
        (false, c2, [LogError "Failed to create staging texture"])
      else
        (true,
         mk (device_ c2) (context_ c2) (duplication_ c2) true
            (current_frame_ c2) (frame_acquired_ c2) (output_desc_ c2)
            (frame_desc_ c2) (source_monitor_ c2) (needs_reinitialize_ c2), []).

Definition set_needs_reinitialize (b : bool) (c : t) : t :=
  mk (device_ c) (context_ c) (duplication_ c) (staging_ c) (current_frame_ c)
     (frame_acquired_ c) (output_desc_ c) (frame_desc_ c) (source_monitor_ c) b.

Definition Reinitialize (env : DeviceEnv) (c : t) : bool * t * list Effect :=
  match source_monitor_ c with
  | None => (false, c, [])
  | Some source =>
      let '(ok, c, fx1) := EnsureDevice env c in
      if negb ok then (false, c, fx1)
      else
        let c := mk (device_ c) (context_ c) None false false false
                    (output_desc_ c) (frame_desc_ c) (source_monitor_ c)
                    (needs_reinitialize_ c) in
        let '(ok, c, fx2) := CreateDuplication env source c in
        if negb ok then (false, set_needs_reinitialize true c, fx1 ++ fx2)
        else (true, set_needs_reinitialize false c, fx1 ++ fx2)
  end.

Definition Shutdown (c : t) : t * list Effect :=
  (mk false false None false false false (output_desc_ c) (frame_desc_ c) None false,
   if frame_acquired_ c && (match duplication_ c with Some _ => true | None => false end)
   then [DuplReleaseFrame] else []).

Definition InitializeForMonitor (env : DeviceEnv) (source : MonitorInfo) (c : t)
  : bool * t * list Effect :=
  let '(c, fx0) := Shutdown c in
  let c := mk (device_ c) (context_ c) (duplication_ c) (staging_ c)
              (current_frame_ c) (frame_acquired_ c) (output_desc_ c)
              (frame_desc_ c) (Some source) false in
  let '(ok, c, fx1) := EnsureDevice env c in
  if negb ok then (false, c, fx0 ++ fx1 ++ [LogError "Failed to initialize D3D11 device"])
  else
    let '(ok, c, fx2) := CreateDuplication env source c in
    if negb ok then
      (false, c, fx0 ++ fx1 ++ fx2 ++ [LogError "Failed to create DXGI duplication"])
    else (true, c, fx0 ++ fx1 ++ fx2).

(* ------------------------------------------------------------------ *)
(** *** Scenarios *)

(** A running session on the 1920x1080 monitor, as [InitializeForMonitor]
    leaves it. *)
Definition live_session : t :=
  mk true true (Some 1) true false false (Some 1) (mkDesc 1920 1080)
     (Some monitor_1080p) false.

(** The platform answers: everything succeeds for the adapter whose only
    output is the 1920x1080 monitor. *)
Definition healthy_device : DeviceEnv :=
  mkDeviceEnv true true true [Some 1] true true (mkDesc 1920 1080) true.

(** A frame arrives but the resource does not expose a texture. *)
Definition texture_query_fails : AcquireEnv :=
  mkAcquireEnv S_OK false (mkDesc 1920 1080).

Definition access_lost : AcquireEnv :=
  mkAcquireEnv DXGI_ERROR_ACCESS_LOST true (mkDesc 1920 1080).

Definition ReleaseFrame (c : t) : t * list Effect :=
  if frame_acquired_ c
     && (match duplication_ c with Some _ => true | None => false end)
  then (set_frame_released c, [DuplReleaseFrame])
  else (c, []).

(* ------------------------------------------------------------------ *)
(** *** Vocabulary of the properties *)

(** Every platform step of [CreateDuplication] succeeds and the adapter
    lists the monitor [h]. *)
Definition session_ready (env : DeviceEnv) (h : HMONITOR) : bool :=
  as_dxgi_device_ok env && get_adapter_ok env
  && match_output h (outputs env) && as_output1_ok env
  && duplicate_output_ok env && create_texture_ok env.

(** A device exists already or can be created. *)
Definition device_ready (env : DeviceEnv) (c : t) : bool :=
  device_ c || create_device_ok env.

(** The duplication session is live. *)
Definition has_session (c : t) : bool :=
  match duplication_ c with Some _ => true | None => false end.

(** [AcquireFrame] returned a frame. *)
Definition delivered (r : option CaptureFrame * t * list Effect) : bool :=
  match fst (fst r) with Some _ => true | None => false end.

(** The staging texture cannot be created; everything else succeeds. *)
Definition no_staging_texture : DeviceEnv :=
  mkDeviceEnv true true true [Some 1] true true (mkDesc 1920 1080) false.

(** A frame arrives and exposes its texture. *)
Definition frame_arrives : AcquireEnv :=
  mkAcquireEnv S_OK true (mkDesc 1920 1080).

Definition frame_timeout : AcquireEnv :=
  mkAcquireEnv DXGI_ERROR_WAIT_TIMEOUT true (mkDesc 1920 1080).

(** The object before [InitializeForMonitor], as the default member
    initialisers leave it. *)
Definition idle : t :=
  mk false false None false false false None (mkDesc 0 0) None false.

End CaptureEngine.

(* ================================================================== *)
(** ** The hand-off between tracker and compositor *)

(** [tracking_manager.h] *)
Inductive TrackingMode := Auto | Caret | Mouse | Focus | Manual.

(** [magnifier_window.h] *)
Record ViewState := mkViewState
  { source_region : RECT;
    zoom : F32.float;
    cursor_visible : bool;
    invert_colors : bool;
    cursor_x : F32.float;
    cursor_y : F32.float }.

(* ================================================================== *)
(** ** app.cpp *)

Module App.

Definition kZoomStep : F32.float := F32.lit 25 100.
Definition kMinZoom : F32.float := F32.of_Z 1.
Definition kMaxZoom : F32.float := F32.of_Z 12.
Definition kCaretFollowTimeoutMs : Z := 600.
Definition kMouseFollowTimeoutMs : Z := 160.
Definition kFocusFollowTimeoutMs : Z := 900.
Definition kPreviousCenterRecordThreshold : F32.float := F32.of_Z 160.
Definition kPreviousCenterRecordCooldownMs : Z := 500.
Definition kClickLimitPixelsPerSecond : F32.float := F32.of_Z 50.
Definition kEndHoldThresholdMs : Z := 1000.

Definition zero : F32.float := S754_zero false.

(** The members of [class App] that the tracker reads or writes, under their
    own names. [config_zoom] is [config_->Data().zoom]; [has_magnifier] says
    whether [magnifier_] is set. *)
Record t := mk
  { source_index_ : Z;
    view_state_ : ViewState;
    mouse_position_ : POINT;
    caret_position_ : POINT;
    focus_rect_ : RECT;
    zoom_ : F32.float;
    tracking_mode_ : TrackingMode;
    last_caret_tick_ : Z;
    last_caret_target_tick_ : Z;
    last_mouse_tick_ : Z;
    last_focus_tick_ : Z;
    current_center_x_ : F32.float;
    current_center_y_ : F32.float;
    has_center_ : bool;
    previous_center_x_ : F32.float;
    previous_center_y_ : F32.float;
    has_previous_center_ : bool;
    previous_center_saved_tick_ : Z;
    dead_zone_pixels_ : F32.float;
    smoothing_factor_ : F32.float;
    invert_colors_ : bool;
    last_user_activity_tick_ : Z;
    last_click_position_ : POINT;
    last_click_tick_ : Z;
    has_last_click_ : bool;
    click_lock_active_ : bool;
    last_click_source_ : option FloatPoint;
    messenger_zone_active_ : bool;
    messenger_zone_source_ : FloatRect;
    messenger_anchor_ : POINT;
    end_key_down_ : bool;
    end_alignment_active_ : bool;
    end_press_tick_ : Z;
    end_ignore_inputs_until_ : Z;
    has_putty_anchor_ : bool;
    putty_anchor_source_ : FloatPoint;
    magnifier_active_ : bool;
    has_magnifier : bool;
    config_zoom : F32.float }.

(** Field update. [eta s] spells the object out field by field; [set_f v s]
    is that term with the field [f] replaced by [v]. *)
Definition eta (s : t) : t :=
  mk (source_index_ s) (view_state_ s) (mouse_position_ s) (caret_position_ s)
     (focus_rect_ s) (zoom_ s) (tracking_mode_ s) (last_caret_tick_ s)
     (last_caret_target_tick_ s) (last_mouse_tick_ s) (last_focus_tick_ s)
     (current_center_x_ s) (current_center_y_ s) (has_center_ s)
     (previous_center_x_ s) (previous_center_y_ s) (has_previous_center_ s)
     (previous_center_saved_tick_ s) (dead_zone_pixels_ s) (smoothing_factor_ s)
     (invert_colors_ s) (last_user_activity_tick_ s) (last_click_position_ s)
     (last_click_tick_ s) (has_last_click_ s) (click_lock_active_ s)
     (last_click_source_ s) (messenger_zone_active_ s) (messenger_zone_source_ s)
     (messenger_anchor_ s) (end_key_down_ s) (end_alignment_active_ s)
     (end_press_tick_ s) (end_ignore_inputs_until_ s) (has_putty_anchor_ s)
     (putty_anchor_source_ s) (magnifier_active_ s) (has_magnifier s)
     (config_zoom s).

Ltac setter proj :=
  let v := fresh "v" in
  let s := fresh "s" in
  intros v s;
  let e := eval cbv [eta] in (eta s) in
  match eval pattern (proj s) in e with
  | ?g _ => let r := eval cbv beta in (g v) in exact r
  end.

Definition set_view_state_ : ViewState -> t -> t := ltac:(setter view_state_).
Definition set_mouse_position_ : POINT -> t -> t := ltac:(setter mouse_position_).
Definition set_caret_position_ : POINT -> t -> t := ltac:(setter caret_position_).
Definition set_focus_rect_ : RECT -> t -> t := ltac:(setter focus_rect_).
Definition set_zoom_ : F32.float -> t -> t := ltac:(setter zoom_).
Definition set_last_caret_tick_ : Z -> t -> t := ltac:(setter last_caret_tick_).
Definition set_last_caret_target_tick_ : Z -> t -> t :=
  ltac:(setter last_caret_target_tick_).
Definition set_last_mouse_tick_ : Z -> t -> t := ltac:(setter last_mouse_tick_).
Definition set_last_focus_tick_ : Z -> t -> t := ltac:(setter last_focus_tick_).
Definition set_current_center_x_ : F32.float -> t -> t :=
  ltac:(setter current_center_x_).
Definition set_current_center_y_ : F32.float -> t -> t :=
  ltac:(setter current_center_y_).
Definition set_has_center_ : bool -> t -> t := ltac:(setter has_center_).
Definition set_previous_center_x_ : F32.float -> t -> t :=
  ltac:(setter previous_center_x_).
Definition set_previous_center_y_ : F32.float -> t -> t :=
  ltac:(setter previous_center_y_).
Definition set_has_previous_center_ : bool -> t -> t :=
  ltac:(setter has_previous_center_).
Definition set_previous_center_saved_tick_ : Z -> t -> t :=
  ltac:(setter previous_center_saved_tick_).
Definition set_last_user_activity_tick_ : Z -> t -> t :=
  ltac:(setter last_user_activity_tick_).
Definition set_last_click_position_ : POINT -> t -> t :=
  ltac:(setter last_click_position_).
Definition set_last_click_tick_ : Z -> t -> t := ltac:(setter last_click_tick_).
Definition set_has_last_click_ : bool -> t -> t := ltac:(setter has_last_click_).
Definition set_click_lock_active_ : bool -> t -> t :=
  ltac:(setter click_lock_active_).
Definition set_last_click_source_ : option FloatPoint -> t -> t :=
  ltac:(setter last_click_source_).
Definition set_messenger_zone_active_ : bool -> t -> t :=
  ltac:(setter messenger_zone_active_).
Definition set_messenger_zone_source_ : FloatRect -> t -> t :=
  ltac:(setter messenger_zone_source_).
Definition set_messenger_anchor_ : POINT -> t -> t :=
  ltac:(setter messenger_anchor_).
Definition set_end_alignment_active_ : bool -> t -> t :=
  ltac:(setter end_alignment_active_).
Definition set_has_putty_anchor_ : bool -> t -> t :=
  ltac:(setter has_putty_anchor_).
Definition set_putty_anchor_source_ : FloatPoint -> t -> t :=
  ltac:(setter putty_anchor_source_).
Definition set_config_zoom : F32.float -> t -> t := ltac:(setter config_zoom).

(** What one call of [UpdateViewState] reads from its collaborators:
    [GetTickCount64()], [capture_->FrameDesc()], [SourceMonitor()] and
    [GetForegroundWindowRectIfMatches({L"putty"})]. *)
Record Env := mkEnv
  { now : Z;
    frame_desc : TEXTURE2D_DESC;
    source_monitor : MonitorInfo;
    putty_window : option RECT }.

Definition PointInRect (rect : RECT) (pt : POINT) : bool :=
  (left rect <=? pt_x pt) && (pt_x pt <? right rect) &&
  (top rect <=? pt_y pt) && (pt_y pt <? bottom rect).

Definition ScreenToSource (m : MonitorInfo) (s : t) (pt : POINT)
  : option FloatPoint :=
  if source_index_ s <? 0 then None
  else if negb (PointInRect (bounds m) pt) then None
  else
    Some (mkFloatPoint
      (float_of_double
         (F64.mul (F64.of_Z (wrap32 (pt_x pt - left (bounds m)))) (scale m)))
      (float_of_double
         (F64.mul (F64.of_Z (wrap32 (pt_y pt - top (bounds m)))) (scale m)))).

(** [ApplyClickMovementLimit(x, y, now)]: the references [x] and [y] come
    back as the first two components. *)
Definition ApplyClickMovementLimit (m : MonitorInfo) (x y : F32.float)
  (now : Z) (s : t) : F32.float * F32.float * t :=
  if negb (click_lock_active_ s) || negb (has_last_click_ s) then (x, y, s)
  else
    let resolved :=
      match last_click_source_ s with
      | Some c => Some (c, s)
      | None =>
          match ScreenToSource m s (last_click_position_ s) with
          | Some c => Some (c, set_last_click_source_ (Some c) s)
          | None => None
          end
      end in
    match resolved with
    | None => (x, y, set_click_lock_active_ false s)
    | Some (c, s) =>
        let elapsed_ms := F32.of_Z (sub64 now (last_click_tick_ s)) in
        let elapsed_ms := if F32.ltb elapsed_ms zero then zero else elapsed_ms in
        let limit :=
          F32.mul kClickLimitPixelsPerSecond (F32.div elapsed_ms (F32.of_Z 1000)) in
        if F32.leb limit zero then (fx c, fy c, s)
        else
          let min_x := F32.sub (fx c) limit in
          let max_x := F32.add (fx c) limit in
          let min_y := F32.sub (fy c) limit in
          let max_y := F32.add (fy c) limit in
          (F32.clamp x min_x max_x, F32.clamp y min_y max_y, s)
    end.

(** The record of the pre-jump center shared by [SnapCenterTo] and the
    smoothing step: taken when the jump is at least the threshold and no
    record exists or the cooldown has elapsed. *)
Definition record_previous_center (distance : F32.float) (now : Z) (s : t) : t :=
  if F32.geb distance kPreviousCenterRecordThreshold then
    if negb (has_previous_center_ s)
       || (kPreviousCenterRecordCooldownMs <=? sub64 now (previous_center_saved_tick_ s))
    then
      set_previous_center_saved_tick_ now
        (set_has_previous_center_ true
          (set_previous_center_y_ (current_center_y_ s)
            (set_previous_center_x_ (current_center_x_ s) s)))
    else s
  else s.

Definition distance_to (x y : F32.float) (s : t) : F32.float :=
  let dx := F32.sub x (current_center_x_ s) in
  let dy := F32.sub y (current_center_y_ s) in
  F32.sqrt (F32.add (F32.mul dx dx) (F32.mul dy dy)).

Definition set_center (x y : F32.float) (s : t) : t :=
  set_current_center_y_ y (set_current_center_x_ x s).

Definition SnapCenterTo (m : MonitorInfo) (x y : F32.float) (now : Z)
  (ignore_click_limit : bool) (s : t) : t :=
  let '(x, y, s) :=
    if negb ignore_click_limit then ApplyClickMovementLimit m x y now s
    else (x, y, s) in
  if negb (has_center_ s) then set_has_center_ true (set_center x y s)
  else
    let s := record_previous_center (distance_to x y s) now s in
    set_has_center_ true (set_center x y s).

(** The locals [target], [have_target] and [target_is_caret] that the three
    lambdas of [UpdateViewState] capture by reference. *)
Record Sel := mkSel
  { target : FloatPoint; have_target : bool; target_is_caret : bool }.

Definition use_caret (e : Env) (inputs_suppressed : bool) (s : t) (l : Sel)
  : bool * t * Sel :=
  if inputs_suppressed then (false, s, l)
  else
    let l := mkSel (target l) (have_target l) false in
    if sub64 (now e) (last_caret_tick_ s) >? kCaretFollowTimeoutMs then (false, s, l)
    else
      match ScreenToSource (source_monitor e) s (caret_position_ s) with
      | None => (false, s, l)
      | Some caret_source =>
          (* Shift right to include caret width *)
          (true, set_last_caret_target_tick_ (now e) s,
           mkSel (mkFloatPoint (F32.add (fx caret_source) (F32.of_Z 4))
                               (fy caret_source))
                 true true)
      end.

Definition use_mouse (e : Env) (inputs_suppressed : bool) (s : t) (l : Sel)
  : bool * t * Sel :=
  if inputs_suppressed then (false, s, l)
  else if sub64 (now e) (last_mouse_tick_ s) >? kMouseFollowTimeoutMs then (false, s, l)
  else if match tracking_mode_ s with Auto => true | _ => false end
          && (last_mouse_tick_ s <=? last_caret_target_tick_ s)
  then (false, s, l)
  else
    match ScreenToSource (source_monitor e) s (mouse_position_ s) with
    | None => (false, s, l)
    | Some mouse_source =>
        (true,
         match tracking_mode_ s with
         | Auto => set_last_caret_target_tick_ 0 s
         | _ => s
         end,
         mkSel mouse_source true (target_is_caret l))
    end.

Definition rect_center (rect : RECT) : POINT :=
  mkPOINT (wrap32 (left rect + Z.quot (wrap32 (right rect - left rect)) 2))
          (wrap32 (top rect + Z.quot (wrap32 (bottom rect - top rect)) 2)).

Definition use_focus (e : Env) (inputs_suppressed : bool) (s : t) (l : Sel)
  : bool * t * Sel :=
  if inputs_suppressed then (false, s, l)
  else if sub64 (now e) (last_focus_tick_ s) >? kFocusFollowTimeoutMs then (false, s, l)
  else
    match ScreenToSource (source_monitor e) s (rect_center (focus_rect_ s)) with
    | Some focus_source => (true, s, mkSel focus_source true (target_is_caret l))
    | None => (false, s, l)
    end.

(** The [switch (tracking_mode_)] over the three lambdas. *)
Definition select_target (e : Env) (inputs_suppressed : bool) (s : t) (l : Sel)
  : t * Sel :=
  match tracking_mode_ s with
  | Auto =>
      let '(ok, s, l) := use_caret e inputs_suppressed s l in
      if ok then (s, l)
      else
        let '(ok, s, l) := use_mouse e inputs_suppressed s l in
        if ok then (s, l)
        else let '(_, s, l) := use_focus e inputs_suppressed s l in (s, l)
  | Caret => let '(_, s, l) := use_caret e inputs_suppressed s l in (s, l)
  | Mouse => let '(_, s, l) := use_mouse e inputs_suppressed s l in (s, l)
  | Focus => let '(_, s, l) := use_focus e inputs_suppressed s l in (s, l)
  | Manual => (s, mkSel (target l) false (target_is_caret l))
  end.

(** The view extent for the current zoom: [frame_width], [frame_height],
    [view_width], [view_height], [half_w], [half_h]. *)
Record Dims := mkDims
  { frame_width : F32.float; frame_height : F32.float;
    view_width : F32.float; view_height : F32.float;
    half_w : F32.float; half_h : F32.float }.

Definition view_dims (desc : TEXTURE2D_DESC) (zoom : F32.float) : Dims :=
  let frame_width := F32.of_Z (Width desc) in
  let frame_height := F32.of_Z (Height desc) in
  let view_width := F32.min (F32.div frame_width zoom) frame_width in
  let view_height := F32.min (F32.div frame_height zoom) frame_height in
  mkDims frame_width frame_height view_width view_height
         (F32.div view_width (F32.of_Z 2)) (F32.div view_height (F32.of_Z 2)).

(** Terminal anchor: refresh of the anchor point while the End key is down or
    the alignment is active. *)
Definition putty_anchor_stage (e : Env) (s : t) : t :=
  if end_key_down_ s || end_alignment_active_ s then
    match putty_window e with
    | Some rect =>
        let bottom_left :=
          mkPOINT (left rect) (Z.max (top rect) (wrap32 (bottom rect - 1))) in
        match ScreenToSource (source_monitor e) s bottom_left with
        | Some bottom_left_source =>
            set_has_putty_anchor_ true (set_putty_anchor_source_ bottom_left_source s)
        | None => s
        end
    | None => s
    end
  else s.

Definition end_alignment_stage (e : Env) (s : t) : t :=
  if end_key_down_ s then
    if negb (end_alignment_active_ s)
       && (kEndHoldThresholdMs <=? sub64 (now e) (end_press_tick_ s))
       && has_putty_anchor_ s
    then set_end_alignment_active_ true s
    else s
  else if end_alignment_active_ s then set_end_alignment_active_ false s
  else s.

(** The terminal alignment itself; the boolean is [putty_alignment_applied]. *)
Definition putty_alignment_stage (d : Dims) (s : t) : t * bool :=
  if end_alignment_active_ s && has_putty_anchor_ s then
    let desired_left :=
      F32.clamp (fx (putty_anchor_source_ s)) zero
                (F32.sub (frame_width d) (view_width d)) in
    let desired_bottom :=
      F32.clamp (fy (putty_anchor_source_ s)) (view_height d) (frame_height d) in
    (set_messenger_zone_active_ false
       (set_has_center_ true
          (set_center (F32.add desired_left (half_w d))
                      (F32.sub desired_bottom (half_h d)) s)),
     true)
  else (s, false).

(** Target adoption: first snap, caret snap, or the smoothed step outside the
    dead zone. *)
Definition center_stage (e : Env) (l : Sel) (s : t) : t :=
  if negb (has_center_ s) then
    SnapCenterTo (source_monitor e) (fx (target l)) (fy (target l)) (now e) false s
  else if have_target l then
    if target_is_caret l then
      SnapCenterTo (source_monitor e) (fx (target l)) (fy (target l)) (now e) true s
    else
      let dx := F32.sub (fx (target l)) (current_center_x_ s) in
      let dy := F32.sub (fy (target l)) (current_center_y_ s) in
      let distance := F32.sqrt (F32.add (F32.mul dx dx) (F32.mul dy dy)) in
      if F32.gtb distance (dead_zone_pixels_ s) then
        let s := record_previous_center distance (now e) s in
        let new_center_x :=
          F32.add (current_center_x_ s) (F32.mul dx (smoothing_factor_ s)) in
        let new_center_y :=
          F32.add (current_center_y_ s) (F32.mul dy (smoothing_factor_ s)) in
        let '(new_center_x, new_center_y, s) :=
          ApplyClickMovementLimit (source_monitor e) new_center_x new_center_y
                                  (now e) s in
        set_center new_center_x new_center_y s
      else s
  else s.

(** Reply-strip clamp of the messenger zone. *)
Definition messenger_stage (d : Dims) (s : t) : t :=
  if messenger_zone_active_ s then
    let min_allowed_x := F32.max (fleft (messenger_zone_source_ s)) (half_w d) in
    let max_allowed_x :=
      F32.min (fright (messenger_zone_source_ s))
              (F32.sub (frame_width d) (half_w d)) in
    let min_allowed_y := F32.max (ftop (messenger_zone_source_ s)) (half_h d) in
    let max_allowed_y :=
      F32.min (fbottom (messenger_zone_source_ s))
              (F32.sub (frame_height d) (half_h d)) in
    if F32.leb min_allowed_x max_allowed_x && F32.leb min_allowed_y max_allowed_y
    then
      set_center (F32.clamp (current_center_x_ s) min_allowed_x max_allowed_x)
                 (F32.clamp (current_center_y_ s) min_allowed_y max_allowed_y) s
    else set_messenger_zone_active_ false s
  else s.

(** The final clamp of the center into the frame. *)
Definition frame_clamp_stage (d : Dims) (s : t) : t :=
  set_center
    (F32.clamp (current_center_x_ s) (half_w d)
               (F32.sub (frame_width d) (half_w d)))
    (F32.clamp (current_center_y_ s) (half_h d)
               (F32.sub (frame_height d) (half_h d))) s.

(** The crop rectangle written into [view_state_]. *)
Definition region_of (d : Dims) (s : t) : RECT :=
  let left := F32.sub (current_center_x_ s) (half_w d) in
  let top := F32.sub (current_center_y_ s) (half_h d) in
  mkRECT (long_of_float (F32.floor left))
         (long_of_float (F32.floor top))
         (long_of_float (F32.ceil (F32.add left (view_width d))))
         (long_of_float (F32.ceil (F32.add top (view_height d)))).

Definition region_stage (d : Dims) (s : t) : t :=
  let v := view_state_ s in
  set_view_state_
    (mkViewState (region_of d s) (zoom_ s) (cursor_visible v) (invert_colors v)
                 (cursor_x v) (cursor_y v)) s.

(** The reset of the overlay fields and the cursor position at the start of
    [UpdateViewState]. *)
Definition cursor_stage (e : Env) (s : t) : t :=
  let v := view_state_ s in
  match ScreenToSource (source_monitor e) s (mouse_position_ s) with
  | Some cursor =>
      set_view_state_
        (mkViewState (source_region v) (zoom v) true (invert_colors_ s)
                     (fx cursor) (fy cursor)) s
  | None =>
      set_view_state_
        (mkViewState (source_region v) (zoom v) false (invert_colors_ s) zero zero) s
  end.

(** The frame middle, the initial value of the local [target]. *)
Definition default_target (desc : TEXTURE2D_DESC) : Sel :=
  mkSel (mkFloatPoint (F32.div (F32.of_Z (Width desc)) (F32.of_Z 2))
                      (F32.div (F32.of_Z (Height desc)) (F32.of_Z 2)))
        false false.

(** First half of [UpdateViewState]: anchor expiry, [inputs_suppressed], the
    cursor overlay and the choice of the target. *)
Definition resolve_target (e : Env) (s : t) : t * Sel :=
  let s :=
    if negb (end_key_down_ s) && (end_ignore_inputs_until_ s <=? now e)
    then set_has_putty_anchor_ false s else s in
  let inputs_suppressed :=
    (now e <? end_ignore_inputs_until_ s) || end_alignment_active_ s in
  let s := cursor_stage e s in
  select_target e inputs_suppressed s (default_target (frame_desc e)).

(** Second half: special anchors, adoption of the target, clamping and the
    crop rectangle. *)
Definition adopt_target (e : Env) (l : Sel) (s : t) : t :=
  let d := view_dims (frame_desc e) (zoom_ s) in
  let s := putty_anchor_stage e s in
  let s := end_alignment_stage e s in
  let '(s, putty_alignment_applied) := putty_alignment_stage d s in
  let s := if putty_alignment_applied then s else center_stage e l s in
  let s := messenger_stage d s in
  let s := frame_clamp_stage d s in
  region_stage d s.

Definition UpdateViewState (e : Env) (s : t) : t :=
  if source_index_ s <? 0 then s
  else if (Width (frame_desc e) =? 0) || (Height (frame_desc e) =? 0) then s
  else let '(s, l) := resolve_target e s in adopt_target e l s.

(** The object as its default member initialisers leave it, with the
    source monitor selected, the tracking mode [mode] read from the
    configuration and the zoom [z]. *)
Definition initial (mode : TrackingMode) (z : F32.float) : t :=
  mk 0
     (mkViewState (mkRECT 0 0 0 0) (F32.of_Z 2) false false zero zero)
     (mkPOINT 0 0) (mkPOINT 0 0) (mkRECT 0 0 0 0)
     z mode 0 0 0 0
     zero zero false
     zero zero false 0
     (F32.of_Z 16) (F32.lit 45 100)
     false 0
     (mkPOINT 0 0) 0 false false None
     false (mkFloatRect zero zero zero zero) (mkPOINT 0 0)
     false false 0 0
     false (mkFloatPoint zero zero)
     true true z.

(** The callbacks installed by [InitializeComponents]; [now] is the value
    of [GetTickCount64()] inside the handler. *)
Definition MarkUserActivity (now : Z) (s : t) : t :=
  set_last_user_activity_tick_ now s.

Definition CaretCallback (now : Z) (pt : POINT) (s : t) : t :=
  MarkUserActivity now (set_last_caret_tick_ now (set_caret_position_ pt s)).

Definition MouseCallback (now : Z) (pt : POINT) (s : t) : t :=
  let previous := mouse_position_ s in
  let moved := negb (pt_x pt =? pt_x previous) || negb (pt_y pt =? pt_y previous) in
  let s := set_last_mouse_tick_ now (set_mouse_position_ pt s) in
  let s := if moved then set_click_lock_active_ false s else s in
  let s :=
    if messenger_zone_active_ s then
      let dx := Z.abs (wrap32 (pt_x pt - pt_x (messenger_anchor_ s))) in
      let dy := Z.abs (wrap32 (pt_y pt - pt_y (messenger_anchor_ s))) in
      if (dx >? 10) || (dy >? 10) then set_messenger_zone_active_ false s else s
    else s in
  MarkUserActivity now s.

Definition FocusCallback (now : Z) (rect : RECT) (s : t) : t :=
  MarkUserActivity now (set_last_focus_tick_ now (set_focus_rect_ rect s)).

(** [OnMouseLeftClick(pt)]; [is_messenger] is [IsMessengerProcess()]. *)
Definition OnMouseLeftClick (m : MonitorInfo) (now : Z) (is_messenger : bool)
  (pt : POINT) (s : t) : t :=
  let s := set_mouse_position_ pt s in
  let s := set_last_click_position_ pt s in
  let s := set_last_click_tick_ now s in
  let s := set_has_last_click_ true s in
  let s := set_click_lock_active_ true s in
  let s := set_messenger_zone_active_ false s in
  let s := MarkUserActivity now s in
  let s := set_last_click_source_ (ScreenToSource m s pt) s in
  if (0 <=? source_index_ s) && is_messenger then
    let b := bounds m in
    let monitor_width := wrap32 (right b - left b) in
    let monitor_height := wrap32 (bottom b - top b) in
    if (0 <? monitor_width) && (0 <? monitor_height) then
      let strip_height :=
        Z.max (lround (F64.mul (F64.of_Z monitor_height) (F64.lit 1 10))) 1 in
      let strip_top := Z.max (wrap32 (bottom b - strip_height)) (top b) in
      if (strip_top <=? pt_y pt) && (pt_y pt <? bottom b)
         && (left b <=? pt_x pt) && (pt_x pt <? right b)
      then
        let restricted_left :=
          wrap32 (left b + lround (F64.mul (F64.of_Z monitor_width) (F64.lit 25 100))) in
        let restricted_left :=
          if restricted_left <? left b then left b
          else if wrap32 (right b - 1) <? restricted_left then wrap32 (right b - 1)
          else restricted_left in
        let zone := mkRECT restricted_left strip_top (right b) (bottom b) in
        if (left zone <? right zone) && (top zone <? bottom zone) then
          match ScreenToSource m s (mkPOINT (left zone) (top zone)),
                ScreenToSource m s (mkPOINT (wrap32 (right zone - 1))
                                            (wrap32 (bottom zone - 1))) with
          | Some top_left, Some bottom_right =>
              set_messenger_anchor_ pt
                (set_messenger_zone_active_ true
                  (set_messenger_zone_source_
                    (mkFloatRect (fx top_left) (fy top_left)
                                 (fx bottom_right) (fy bottom_right)) s))
          | _, _ => s
          end
        else s
      else s
    else s
  else s.

Definition ClearCenterHistory (s : t) : t :=
  set_messenger_zone_active_ false
    (set_last_click_source_ None
      (set_last_click_tick_ 0
        (set_click_lock_active_ false
          (set_has_last_click_ false
            (set_previous_center_saved_tick_ 0
              (set_has_previous_center_ false
                (set_has_center_ false s))))))).

(** What [ChangeZoom] does to its collaborators: [config_->Save()],
    [magnifier_->ShowLayoutOverlay(text, 1000)] and [UpdateTray()]. *)
Inductive Effect :=
| ConfigSave
| LayoutOverlay (text : string) (duration_ms : Z)
| TrayUpdate.

(** [swprintf_s(text, L"%d%%", percent)]. *)
Definition percent_text (percent : Z) : string :=
  (DecimalString.NilZero.string_of_int (Z.to_int percent) ++ "%")%string.

Definition ChangeZoom (delta : F32.float) (s : t) : t * list Effect :=
  let new_zoom := F32.clamp (F32.add (zoom_ s) delta) kMinZoom kMaxZoom in
  if F32.ltb (F32.abs (F32.sub new_zoom (zoom_ s))) (F32.lit 1 1000) then (s, [])
  else
    let s := set_zoom_ new_zoom s in
    let s := set_config_zoom (zoom_ s) s in
    let s := set_has_center_ false s in
    (s,
     [ConfigSave]
     ++ (if has_magnifier s && magnifier_active_ s then
           [LayoutOverlay
              (percent_text
                 (long_of_float (F32.round (F32.mul (zoom_ s) (F32.of_Z 100)))))
              1000]
         else [])
     ++ [TrayUpdate]).

(* ------------------------------------------------------------------ *)
(** *** Vocabulary of the properties *)

Definition center (s : t) : F32.float * F32.float :=
  (current_center_x_ s, current_center_y_ s).

(** Freshness of the three positional signals at [now e]. *)
Definition caret_fresh (e : Env) (s : t) : bool :=
  sub64 (now e) (last_caret_tick_ s) <=? kCaretFollowTimeoutMs.
Definition mouse_fresh (e : Env) (s : t) : bool :=
  sub64 (now e) (last_mouse_tick_ s) <=? kMouseFollowTimeoutMs.
Definition focus_fresh (e : Env) (s : t) : bool :=
  sub64 (now e) (last_focus_tick_ s) <=? kFocusFollowTimeoutMs.

(** Some positional signal is fresh enough for the active tracking mode. *)
Definition signal_fresh (e : Env) (s : t) : bool :=
  match tracking_mode_ s with
  | Auto => caret_fresh e s || mouse_fresh e s || focus_fresh e s
  | Caret => caret_fresh e s
  | Mouse => mouse_fresh e s
  | Focus => focus_fresh e s
  | Manual => false
  end.

(** The cursor overlay of the output: visible at the pointer's source-space
    point when the pointer is on the source monitor. *)
Definition cursor_overlay (e : Env) (s : t) : bool * F32.float * F32.float :=
  match ScreenToSource (source_monitor e) s (mouse_position_ s) with
  | Some cursor => (true, fx cursor, fy cursor)
  | None => (false, zero, zero)
  end.

(** The target one resolution chooses, with its caret flag. *)
Definition sel_choice (l : Sel) : option (FloatPoint * bool) :=
  if have_target l then Some (target l, target_is_caret l) else None.

Definition chosen_target (e : Env) (s : t) : option (FloatPoint * bool) :=
  sel_choice (snd (resolve_target e s)).

(** The caret target: the caret point shifted right by the caret width. *)
Definition caret_target (P : FloatPoint) : FloatPoint :=
  mkFloatPoint (F32.add (fx P) (F32.of_Z 4)) (fy P).

(** Each signal as the resolution sees it: its source-space point when it is
    fresh and on the source monitor. *)
Definition caret_signal (e : Env) (s : t) : option FloatPoint :=
  if caret_fresh e s
  then ScreenToSource (source_monitor e) s (caret_position_ s) else None.
Definition pointer_signal (e : Env) (s : t) : option FloatPoint :=
  if mouse_fresh e s
  then ScreenToSource (source_monitor e) s (mouse_position_ s) else None.
Definition focus_signal (e : Env) (s : t) : option FloatPoint :=
  if focus_fresh e s
  then ScreenToSource (source_monitor e) s (rect_center (focus_rect_ s)) else None.

(** The Auto rule as a decision table: the caret whenever it is available;
    else the pointer, provided its tick is newer than the last caret-driven
    resolution; else the focus. *)
Definition auto_choice (e : Env) (s : t) : option (FloatPoint * bool) :=
  match caret_signal e s with
  | Some P => Some (caret_target P, true)
  | None =>
      match (if last_caret_target_tick_ s <? last_mouse_tick_ s
             then pointer_signal e s else None) with
      | Some Q => Some (Q, false)
      | None =>
          match focus_signal e s with
          | Some R => Some (R, false)
          | None => None
          end
      end
  end.

(** [last_caret_target_tick_] after an Auto resolution. *)
Definition auto_caret_tick (e : Env) (s : t) : Z :=
  match caret_signal e s with
  | Some _ => now e
  | None =>
      match (if last_caret_target_tick_ s <? last_mouse_tick_ s
             then pointer_signal e s else None) with
      | Some _ => 0
      | None => last_caret_target_tick_ s
      end
  end.

(** The members that the choice of the target never writes. *)
Definition core (s : t) :=
  (source_index_ s, zoom_ s, tracking_mode_ s,
   (current_center_x_ s, current_center_y_ s, has_center_ s),
   (previous_center_x_ s, previous_center_y_ s, has_previous_center_ s,
    previous_center_saved_tick_ s),
   (dead_zone_pixels_ s, smoothing_factor_ s),
   (last_click_position_ s, last_click_tick_ s, has_last_click_ s,
    click_lock_active_ s, last_click_source_ s),
   (messenger_zone_active_ s, messenger_zone_source_ s),
   (end_key_down_ s, end_alignment_active_ s, end_press_tick_ s,
    end_ignore_inputs_until_ s, putty_anchor_source_ s),
   (caret_position_ s, mouse_position_ s, focus_rect_ s,
    last_caret_tick_ s, last_mouse_tick_ s, last_focus_tick_ s)).

(** The members the two clamps and the crop never write. *)
Definition steady (s : t) :=
  (source_index_ s, zoom_ s, has_center_ s, dead_zone_pixels_ s,
   end_key_down_ s, end_alignment_active_ s, messenger_zone_source_ s).

(** The members a snap of the center leaves alone. *)
Definition unsnapped (s : t) :=
  (steady s, messenger_zone_active_ s, last_caret_target_tick_ s, view_state_ s).

(** The clamped zoom [ChangeZoom] computes, and its no-op test. *)
Definition new_zoom (delta : F32.float) (s : t) : F32.float :=
  F32.clamp (F32.add (zoom_ s) delta) kMinZoom kMaxZoom.


(** The point [(x, y)] needs no clamping into the frame. *)
Definition point_in_frame (d : Dims) (x y : F32.float) : bool :=
  negb (F32.ltb x (half_w d))
  && negb (F32.ltb (F32.sub (frame_width d) (half_w d)) x)
  && negb (F32.ltb y (half_h d))
  && negb (F32.ltb (F32.sub (frame_height d) (half_h d)) y).

(** The center needs no clamping into the messenger zone (or no zone is
    active, or the zone leaves no room and is dropped). *)
Definition center_in_zone (d : Dims) (s : t) : bool :=
  if messenger_zone_active_ s then
    let min_allowed_x := F32.max (fleft (messenger_zone_source_ s)) (half_w d) in
    let max_allowed_x :=
      F32.min (fright (messenger_zone_source_ s))
              (F32.sub (frame_width d) (half_w d)) in
    let min_allowed_y := F32.max (ftop (messenger_zone_source_ s)) (half_h d) in
    let max_allowed_y :=
      F32.min (fbottom (messenger_zone_source_ s))
              (F32.sub (frame_height d) (half_h d)) in
    if F32.leb min_allowed_x max_allowed_x && F32.leb min_allowed_y max_allowed_y
    then
      negb (F32.ltb (current_center_x_ s) min_allowed_x)
      && negb (F32.ltb max_allowed_x (current_center_x_ s))
      && negb (F32.ltb (current_center_y_ s) min_allowed_y)
      && negb (F32.ltb max_allowed_y (current_center_y_ s))
    else true
  else true.

(** A valid center: the half extents of the view fit around it (the
    invariant of the data model). *)
Definition center_valid (d : Dims) (s : t) : bool :=
  point_in_frame d (current_center_x_ s) (current_center_y_ s)
  && center_in_zone d s.

(** The target lies inside the dead zone around the current center. *)
Definition in_dead_zone (p : FloatPoint) (s : t) : bool :=
  negb (F32.gtb (distance_to (fx p) (fy p) s) (dead_zone_pixels_ s)).

(** The click-lock members. *)
Definition click_state (s : t) :=
  (click_lock_active_ s, has_last_click_ s, last_click_source_ s,
   last_click_tick_ s).

(** The displacement limit [elapsed_ms] after the click at tick [T]. *)
Definition click_limit (now T : Z) : F32.float :=
  let elapsed_ms := F32.of_Z (sub64 now T) in
  let elapsed_ms := if F32.ltb elapsed_ms zero then zero else elapsed_ms in
  F32.mul kClickLimitPixelsPerSecond (F32.div elapsed_ms (F32.of_Z 1000)).

(** The Auto rule in the words of the specification: the caret is preferred
    when fresh and not superseded, a pointer update newer than the last
    caret-driven center superseding it until the caret updates again; else
    the pointer when fresh, else the focus when fresh. *)
Inductive Choice := ChooseCaret | ChoosePointer | ChooseFocus | ChooseNone.

Definition caret_superseded (s : t) : bool :=
  (last_caret_target_tick_ s <? last_mouse_tick_ s)
  && (last_caret_tick_ s <=? last_mouse_tick_ s).

Definition spec_auto_choice (e : Env) (s : t) : Choice :=
  if caret_fresh e s && negb (caret_superseded s) then ChooseCaret
  else if mouse_fresh e s then ChoosePointer
  else if focus_fresh e s then ChooseFocus
  else ChooseNone.

(** The final clamp of a point into the frame. *)
Definition clamped (d : Dims) (p : F32.float * F32.float)
  : F32.float * F32.float :=
  (F32.clamp (fst p) (half_w d) (F32.sub (frame_width d) (half_w d)),
   F32.clamp (snd p) (half_h d) (F32.sub (frame_height d) (half_h d))).

(** The click box: the candidate [p] clamped to within [L] of the click
    point [C] along each axis, and [C] itself when [L <= 0]. *)
Definition limited (C : FloatPoint) (L : F32.float) (p : F32.float * F32.float)
  : F32.float * F32.float :=
  if F32.leb L zero then (fx C, fy C)
  else (F32.clamp (fst p) (F32.sub (fx C) L) (F32.add (fx C) L),
        F32.clamp (snd p) (F32.sub (fy C) L) (F32.add (fy C) L)).

(** The candidate of the smoothed step from the current center towards [p]. *)
Definition smoothed (p : FloatPoint) (s : t) : F32.float * F32.float :=
  (F32.add (current_center_x_ s)
           (F32.mul (F32.sub (fx p) (current_center_x_ s)) (smoothing_factor_ s)),
   F32.add (current_center_y_ s)
           (F32.mul (F32.sub (fy p) (current_center_y_ s)) (smoothing_factor_ s))).

(** The point a first snap adopts: the chosen target, or the frame middle
    when no target is chosen. *)
Definition adopted_target (e : Env) (s : t) : F32.float * F32.float :=
  match chosen_target e s with
  | Some (p, _) => (fx p, fy p)
  | None =>
      (F32.div (F32.of_Z (Width (frame_desc e))) (F32.of_Z 2),
       F32.div (F32.of_Z (Height (frame_desc e))) (F32.of_Z 2))
  end.


(** The click-lock is not armed. *)
Definition click_lock_off (s : t) : bool :=
  negb (click_lock_active_ s) || negb (has_last_click_ s).

(* ------------------------------------------------------------------ *)
(** *** Scenarios *)

(** The 1920x1080 monitor captured at its native size, at tick [now]. *)
Definition env_1080p (now : Z) : Env :=
  mkEnv now (mkDesc 1920 1080) monitor_1080p None.

(** An established center at [(x, y)]. *)
Definition with_center (x y : Z) (s : t) : t :=
  set_has_center_ true (set_center (F32.of_Z x) (F32.of_Z y) s).

(** Mouse mode; six zoom steps up from the default 2.0 give zoom 3.5 and
    clear [has_center_]; then the pointer moves to the right edge of the
    screen at tick 990. *)
Definition zoom_steps (n : nat) (s : t) : t :=
  Nat.iter n (fun s => fst (ChangeZoom kZoomStep s)) s.

Definition right_edge_state : t :=
  MouseCallback 990 (mkPOINT 1919 500) (zoom_steps 6 (initial Mouse (F32.of_Z 2))).

(** Caret mode at zoom 2, center in the middle, caret reported 10 ms ago
    near the left edge. *)
Definition caret_left_edge_state : t :=
  CaretCallback 990 (mkPOINT 10 500) (with_center 960 540 (initial Caret (F32.of_Z 2))).

(** Caret mode at zoom 2, center in the middle; a left click at (100, 100)
    at tick 900 arms the click-lock, then the caret is reported at
    (700, 500) at tick 990. *)
Definition caret_inside_state : t :=
  CaretCallback 990 (mkPOINT 700 500)
    (OnMouseLeftClick monitor_1080p 900 false (mkPOINT 100 100)
       (with_center 960 540 (initial Caret (F32.of_Z 2)))).

(** Auto mode: caret reported at tick 1000 and followed at tick 1100, then
    the pointer moves at tick 1150. *)
Definition auto_pointer_after_caret_state : t :=
  MouseCallback 1150 (mkPOINT 1200 800)
    (UpdateViewState (env_1080p 1100)
       (CaretCallback 1000 (mkPOINT 700 500)
          (with_center 960 540 (initial Auto (F32.of_Z 2))))).

(** Auto mode with a stale caret: pointer moved 10 ms ago. *)
Definition auto_pointer_state : t :=
  MouseCallback 5000 (mkPOINT 1200 800)
    (with_center 960 540 (initial Auto (F32.of_Z 2))).

(** Manual mode at zoom 2 with the center at (960, 540); then a left click
    at (100, 100) at tick 1000. *)
Definition manual_state : t := with_center 960 540 (initial Manual (F32.of_Z 2)).
Definition clicked_state : t :=
  OnMouseLeftClick monitor_1080p 1000 false (mkPOINT 100 100) manual_state.

(** Mouse mode, center at (960, 540), pointer resting at (965, 545). *)
Definition dead_zone_state : t :=
  MouseCallback 1000 (mkPOINT 965 545)
    (with_center 960 540 (initial Mouse (F32.of_Z 2))).

(** Manual mode with the center at (700, 400), after one zoom step. *)
Definition zoomed_manual_state : t :=
  fst (ChangeZoom kZoomStep (with_center 700 400 (initial Manual (F32.of_Z 2)))).

(** Mouse mode at zoom 2 with the center at (960, 540): the pointer moves
    to (100, 100) at tick 990 and the left button is pressed there at tick
    1000. *)
Definition click_and_track_state : t :=
  OnMouseLeftClick monitor_1080p 1000 false (mkPOINT 100 100)
    (MouseCallback 990 (mkPOINT 100 100)
       (with_center 960 540 (initial Mouse (F32.of_Z 2)))).

(** Mouse mode at zoom 8 with the center at (300, 980): the pointer moves
    to (305, 985) at tick 990 and the left button is pressed there, inside
    the reply strip of a messenger window, at tick 1000. *)
Definition reply_strip_state : t :=
  OnMouseLeftClick monitor_1080p 1000 true (mkPOINT 305 985)
    (MouseCallback 990 (mkPOINT 305 985)
       (with_center 300 980 (initial Mouse (F32.of_Z 8)))).


(* ------------------------------------------------------------------ *)
(** *** Keyboard, wheel, cursor confinement and housekeeping *)

Definition kBypassDurationMs : Z := 5000.
Definition kBypassHoldThresholdMs : Z := 500.
Definition kInactivityRestartMs : Z := 60000.
Definition kStatusBadgeDurationMs : Z := 2000.
Definition kEndIgnoreCursorMs : Z := 500.

(** Addition of [ULONGLONG] tick counts. *)
Definition add64 (a b : Z) : Z := (a + b) mod 2 ^ 64.

Definition set_tracking_mode_ : TrackingMode -> t -> t :=
  ltac:(setter tracking_mode_).
Definition set_invert_colors_ : bool -> t -> t := ltac:(setter invert_colors_).
Definition set_end_key_down_ : bool -> t -> t := ltac:(setter end_key_down_).
Definition set_end_press_tick_ : Z -> t -> t := ltac:(setter end_press_tick_).
Definition set_end_ignore_inputs_until_ : Z -> t -> t :=
  ltac:(setter end_ignore_inputs_until_).
Definition set_magnifier_active_ : bool -> t -> t :=
  ltac:(setter magnifier_active_).

(** Further members of [class App]: the keyboard state, the cursor
    confinement and the restart flag. [tracking_Mode] is
    [tracking_->Mode()]; [config_mode], [config_block_cursor] and
    [config_invert_colors] are the fields of [config_->Data()]. *)
Record Ctl := mkCtl
  { control_down_ : bool;
    alt_down_ : bool;
    ctrl_block_active_ : bool;
    control_press_tick_ : Z;
    cursor_bypass_until_ : Z;
    bypass_active_ : bool;
    cursor_block_enabled_ : bool;
    restart_pending_ : bool;
    tracking_Mode : TrackingMode;
    config_mode : TrackingMode;
    config_block_cursor : bool;
    config_invert_colors : bool }.

Definition set_control_down_ (v : bool) (k : Ctl) : Ctl :=
  mkCtl v (alt_down_ k) (ctrl_block_active_ k) (control_press_tick_ k)
        (cursor_bypass_until_ k) (bypass_active_ k) (cursor_block_enabled_ k)
        (restart_pending_ k) (tracking_Mode k) (config_mode k)
        (config_block_cursor k) (config_invert_colors k).
Definition set_alt_down_ (v : bool) (k : Ctl) : Ctl :=
  mkCtl (control_down_ k) v (ctrl_block_active_ k) (control_press_tick_ k)
        (cursor_bypass_until_ k) (bypass_active_ k) (cursor_block_enabled_ k)
        (restart_pending_ k) (tracking_Mode k) (config_mode k)
        (config_block_cursor k) (config_invert_colors k).
Definition set_ctrl_block_active_ (v : bool) (k : Ctl) : Ctl :=
  mkCtl (control_down_ k) (alt_down_ k) v (control_press_tick_ k)
        (cursor_bypass_until_ k) (bypass_active_ k) (cursor_block_enabled_ k)
        (restart_pending_ k) (tracking_Mode k) (config_mode k)
        (config_block_cursor k) (config_invert_colors k).
Definition set_control_press_tick_ (v : Z) (k : Ctl) : Ctl :=
  mkCtl (control_down_ k) (alt_down_ k) (ctrl_block_active_ k) v
        (cursor_bypass_until_ k) (bypass_active_ k) (cursor_block_enabled_ k)
        (restart_pending_ k) (tracking_Mode k) (config_mode k)
        (config_block_cursor k) (config_invert_colors k).
Definition set_cursor_bypass_until_ (v : Z) (k : Ctl) : Ctl :=
  mkCtl (control_down_ k) (alt_down_ k) (ctrl_block_active_ k)
        (control_press_tick_ k) v (bypass_active_ k) (cursor_block_enabled_ k)
        (restart_pending_ k) (tracking_Mode k) (config_mode k)
        (config_block_cursor k) (config_invert_colors k).
Definition set_bypass_active_ (v : bool) (k : Ctl) : Ctl :=
  mkCtl (control_down_ k) (alt_down_ k) (ctrl_block_active_ k)
        (control_press_tick_ k) (cursor_bypass_until_ k) v
        (cursor_block_enabled_ k) (restart_pending_ k) (tracking_Mode k)
        (config_mode k) (config_block_cursor k) (config_invert_colors k).
Definition set_restart_pending_ (v : bool) (k : Ctl) : Ctl :=
  mkCtl (control_down_ k) (alt_down_ k) (ctrl_block_active_ k)
        (control_press_tick_ k) (cursor_bypass_until_ k) (bypass_active_ k)
        (cursor_block_enabled_ k) v (tracking_Mode k) (config_mode k)
        (config_block_cursor k) (config_invert_colors k).
Definition set_modes (v : TrackingMode) (k : Ctl) : Ctl :=
  mkCtl (control_down_ k) (alt_down_ k) (ctrl_block_active_ k)
        (control_press_tick_ k) (cursor_bypass_until_ k) (bypass_active_ k)
        (cursor_block_enabled_ k) (restart_pending_ k) v v
        (config_block_cursor k) (config_invert_colors k).
Definition set_config_invert_colors (v : bool) (k : Ctl) : Ctl :=
  mkCtl (control_down_ k) (alt_down_ k) (ctrl_block_active_ k)
        (control_press_tick_ k) (cursor_bypass_until_ k) (bypass_active_ k)
        (cursor_block_enabled_ k) (restart_pending_ k) (tracking_Mode k)
        (config_mode k) (config_block_cursor k) v.

(** Calls the handlers below make on the window system and on the other
    components. *)
Inductive Call :=
| ClipCursor (area : option RECT)
| HideWindow
| ShowLayoutOverlay (text : string) (duration_ms : Z)
| ShowStatusMessage (text : string) (duration_ms : Z)
| SaveConfig
| UpdateTray
| CreateProcess
| PostQuitMessage.

(** Virtual-key codes and keyboard messages of the Windows SDK. *)
Definition VK_SHIFT : Z := 0x10.
Definition VK_CONTROL : Z := 0x11.
Definition VK_MENU : Z := 0x12.
Definition VK_CAPITAL : Z := 0x14.
Definition VK_END : Z := 0x23.
Definition VK_LWIN : Z := 0x5B.
Definition VK_RWIN : Z := 0x5C.
Definition VK_LSHIFT : Z := 0xA0.
Definition VK_RSHIFT : Z := 0xA1.
Definition VK_LCONTROL : Z := 0xA2.
Definition VK_RCONTROL : Z := 0xA3.
Definition VK_LMENU : Z := 0xA4.
Definition VK_RMENU : Z := 0xA5.
Definition VK_Z : Z := 0x5A.
Definition WM_KEYDOWN : Z := 0x0100.
Definition WM_KEYUP : Z := 0x0101.
Definition WM_SYSKEYDOWN : Z := 0x0104.
Definition WM_SYSKEYUP : Z := 0x0105.
Definition WHEEL_DELTA : Z := 120.

(** [std::numeric_limits<float>::epsilon()]. *)
Definition epsilon : F32.float := F32.lit 1 8388608.

Definition CenterOnCaretNow (e : Env) (s : t) : t :=
  if negb (magnifier_active_ s)
     || match tracking_mode_ s with Manual => true | _ => false end
     || (source_index_ s <? 0)
  then s
  else if (Width (frame_desc e) =? 0) || (Height (frame_desc e) =? 0) then s
  else
    let m := source_monitor e in
    if negb (PointInRect (bounds m) (caret_position_ s)) then s
    else
      let caret_x :=
        float_of_double
          (F64.mul (F64.of_Z (wrap32 (pt_x (caret_position_ s) - left (bounds m))))
                   (scale m)) in
      let caret_y :=
        float_of_double
          (F64.mul (F64.of_Z (wrap32 (pt_y (caret_position_ s) - top (bounds m))))
                   (scale m)) in
      let caret_x := F32.add caret_x (F32.of_Z 4) in
      let d := view_dims (frame_desc e) (zoom_ s) in
      let s := SnapCenterTo m caret_x caret_y (now e) true s in
      let s := set_last_caret_target_tick_ (now e) s in
      let s :=
        set_current_center_x_
          (F32.clamp (current_center_x_ s) (half_w d)
                     (F32.sub (frame_width d) (half_w d))) s in
      set_current_center_y_
        (F32.clamp (current_center_y_ s) (half_h d)
                   (F32.sub (frame_height d) (half_h d))) s.

Definition RestorePreviousCenter (now : Z) (s : t) : t :=
  if negb (has_previous_center_ s) then s
  else
    let s :=
      if negb (has_center_ s) then
        set_has_center_ true
          (set_current_center_y_ (previous_center_y_ s)
            (set_current_center_x_ (previous_center_x_ s) s))
      else
        let s :=
          set_previous_center_x_ (current_center_x_ s)
            (set_current_center_x_ (previous_center_x_ s) s) in
        set_previous_center_y_ (current_center_y_ s)
          (set_current_center_y_ (previous_center_y_ s) s) in
    set_previous_center_saved_tick_ now s.

Definition StopMagnifier (s : t) : t * list Call :=
  let s := set_magnifier_active_ false s in
  (ClearCenterHistory s,
   (if has_magnifier s then [HideWindow; ShowLayoutOverlay EmptyString 0] else [])
   ++ [ClipCursor None; ShowStatusMessage EmptyString 0; UpdateTray]).

Definition RequestExit (s : t) : t * list Call :=
  let '(s, fx) := StopMagnifier s in (s, fx ++ [PostQuitMessage]).

(** [ApplyCursorBlocking()], with [SourceMonitor()] as [m]. *)
Definition ApplyCursorBlocking (now : Z) (m : MonitorInfo) (k : Ctl) (s : t)
  : Ctl * list Call :=
  if negb (cursor_block_enabled_ k) || negb (magnifier_active_ s)
     || (source_index_ s <? 0)
  then (k, [ClipCursor None])
  else if bypass_active_ k then
    if cursor_bypass_until_ k <=? now
    then (set_bypass_active_ false k, [ClipCursor (Some (bounds m))])
    else (k, [ClipCursor None])
  else (k, [ClipCursor (Some (bounds m))]).

(** [RestartApplication()]; [module_path_ok] and [create_process_ok] are the
    outcomes of [GetModuleFileNameW] and [CreateProcessW]. *)
Definition RestartApplication (now : Z) (module_path_ok create_process_ok : bool)
  (k : Ctl) (s : t) : Ctl * t * list Call :=
  if restart_pending_ k then (k, s, [])
  else
    let k := set_restart_pending_ true k in
    let s := set_last_user_activity_tick_ now s in
    if negb module_path_ok then (set_restart_pending_ false k, s, [])
    else if create_process_ok then
      let '(s, fx) := StopMagnifier s in
      (k, s, [CreateProcess] ++ fx ++ [PostQuitMessage])
    else (set_restart_pending_ false k, set_last_user_activity_tick_ now s, []).

Definition CheckInactivity (now : Z) (module_path_ok create_process_ok : bool)
  (k : Ctl) (s : t) : Ctl * t * list Call :=
  if restart_pending_ k then (k, s, [])
  else if last_user_activity_tick_ s =? 0 then
    (k, set_last_user_activity_tick_ now s, [])
  else if kInactivityRestartMs <=? sub64 now (last_user_activity_tick_ s) then
    RestartApplication now module_path_ok create_process_ok k s
  else (k, s, []).

Definition TrackingModeLabel (mode : TrackingMode) : string :=
  match mode with
  | Auto => "Auto"
  | Caret => "Caret"
  | Mouse => "Mouse"
  | Focus => "Focus"
  | Manual => "Manual"
  end.

Definition SetTrackingMode (mode : TrackingMode) (k : Ctl) (s : t)
  : Ctl * t * list Call :=
  (set_modes mode k, set_tracking_mode_ mode s,
   [SaveConfig; ShowStatusMessage (TrackingModeLabel mode) kStatusBadgeDurationMs;
    UpdateTray]).

Definition CycleTrackingMode (k : Ctl) (s : t) : Ctl * t * list Call :=
  let next :=
    match tracking_mode_ s with
    | Auto => Caret
    | Caret => Mouse
    | Mouse => Focus
    | Focus => Manual
    | Manual => Auto
    end in
  SetTrackingMode next k s.

Definition ToggleInvertColors (now : Z) (k : Ctl) (s : t) : Ctl * t * list Call :=
  let s := MarkUserActivity now s in
  let s := set_invert_colors_ (negb (invert_colors_ s)) s in
  (set_config_invert_colors (invert_colors_ s) k, s,
   [SaveConfig;
    ShowStatusMessage (if invert_colors_ s then "Invert On" else "Invert Off")
                      kStatusBadgeDurationMs;
    UpdateTray]).

(** The wheel callback installed by [InitializeComponents]; the boolean says
    whether the event is consumed. *)
Definition WheelCallback (now : Z) (delta : Z) (k : Ctl) (s : t)
  : bool * t * list Effect :=
  let s := MarkUserActivity now s in
  if negb (control_down_ k) || negb (alt_down_ k) then (false, s, [])
  else
    let steps := F32.div (F32.of_Z delta) (F32.of_Z WHEEL_DELTA) in
    if F32.ltb (F32.abs steps) epsilon then (true, s, [])
    else
      let '(s, fx) := ChangeZoom (F32.mul kZoomStep steps) s in
      (true, s, fx).

(** [tracking_->RequestCaretRefresh()]: [uia_caret] is the caret point the
    automation query emits through the caret callback, if any. *)
Definition RequestCaretRefresh (now : Z) (uia_caret : option POINT) (s : t) : t :=
  match uia_caret with
  | Some pt => CaretCallback now pt s
  | None => s
  end.

Definition is_pure_modifier (vk : Z) : bool :=
  (vk =? VK_SHIFT) || (vk =? VK_LSHIFT) || (vk =? VK_RSHIFT)
  || (vk =? VK_CONTROL) || (vk =? VK_LCONTROL) || (vk =? VK_RCONTROL)
  || (vk =? VK_MENU) || (vk =? VK_LMENU) || (vk =? VK_RMENU)
  || (vk =? VK_LWIN) || (vk =? VK_RWIN) || (vk =? VK_CAPITAL).

(** The two places of the key callback that follow the caret at once. *)
Definition follow_caret (e : Env) (uia_caret : option POINT) (k : Ctl) (s : t) : t :=
  match tracking_Mode k with
  | Manual => s
  | _ => CenterOnCaretNow e (RequestCaretRefresh (now e) uia_caret s)
  end.

(** The key callback installed by [InitializeComponents], for a non-null
    [KBDLLHOOKSTRUCT] with virtual key [vk]; the boolean says whether the key
    event is consumed. *)
Definition KeyCallback (e : Env) (uia_caret : option POINT) (msg vk : Z)
  (k : Ctl) (s : t) : bool * Ctl * t * list Call :=
  let now := now e in
  let key_down := (msg =? WM_KEYDOWN) || (msg =? WM_SYSKEYDOWN) in
  let key_up := (msg =? WM_KEYUP) || (msg =? WM_SYSKEYUP) in
  let s := if key_down || key_up then MarkUserActivity now s else s in
  let '(handled, k, s, fx) :=
    if (vk =? VK_LCONTROL) || (vk =? VK_RCONTROL) || (vk =? VK_CONTROL) then
      let '(k, fx) :=
        if key_down && negb (control_down_ k) then
          let k := set_control_press_tick_ now (set_control_down_ true k) in
          (if alt_down_ k then set_ctrl_block_active_ true k else k, [])
        else if key_up && control_down_ k then
          let k := set_control_down_ false k in
          let '(k, fx) :=
            if kBypassHoldThresholdMs <=? sub64 now (control_press_tick_ k) then
              (set_bypass_active_ true
                 (set_cursor_bypass_until_ (add64 now kBypassDurationMs) k),
               [ClipCursor None])
            else (k, []) in
          (set_ctrl_block_active_ false k, fx)
        else (k, []) in
      ((alt_down_ k || ctrl_block_active_ k) && (key_down || key_up), k, s, fx)
    else if (vk =? VK_MENU) || (vk =? VK_LMENU) || (vk =? VK_RMENU) then
      let k :=
        if key_down then
          let k := set_alt_down_ true k in
          if control_down_ k then set_ctrl_block_active_ true k else k
        else if key_up then set_ctrl_block_active_ false (set_alt_down_ false k)
        else k in
      (false, k, s, [])
    else if vk =? VK_END then
      let s :=
        if key_down && negb (end_key_down_ s) then
          set_has_putty_anchor_ false
            (set_end_ignore_inputs_until_ 0
              (set_end_alignment_active_ false
                (set_end_press_tick_ now (set_end_key_down_ true s))))
        else if key_up && end_key_down_ s then
          set_end_ignore_inputs_until_ (add64 now kEndIgnoreCursorMs)
            (set_end_alignment_active_ false (set_end_key_down_ false s))
        else s in
      (false, k, s, [])
    else (false, k, s, []) in
  let s :=
    if ((vk =? VK_LWIN) || (vk =? VK_RWIN)) && key_up
    then follow_caret e uia_caret k s else s in
  let s :=
    if key_down && negb (is_pure_modifier vk)
    then follow_caret e uia_caret k s else s in
  if key_down && control_down_ k && alt_down_ k && (vk =? VK_Z) then
    let '(s, fx') := RequestExit s in (true, k, s, fx ++ fx')
  else (handled, k, s, fx).

(** The frame step of [App::Update()]: the inactivity check, the test of
    [magnifier_active_], the acquisition with one [Reinitialize()] retry,
    [UpdateViewState()], the hand-off to [PresentFrame] and the cursor
    confinement. The keyboard-layout badge, the window exclusivity pass and
    the queued status badge of [Update()] touch none of these members and
    are left out. [acq1] and [acq2] answer the first and the second
    [AcquireFrame], [dev] answers [Reinitialize]. *)
Record Tick := mkTick
  { tick_now : Z;
    tick_monitor : MonitorInfo;
    tick_putty : option RECT;
    module_path_ok : bool;
    create_process_ok : bool;
    acq1 : CaptureEngine.AcquireEnv;
    acq2 : CaptureEngine.AcquireEnv;
    dev : CaptureEngine.DeviceEnv }.

Record World := mkWorld
  { ctl : Ctl; app : t; capture : CaptureEngine.t }.

Record Outcome := mkOutcome
  { world : World;
    presented : option (CaptureEngine.CaptureFrame * ViewState);
    calls : list Call;
    capture_calls : list CaptureEngine.Effect }.

Definition acquire_with_retry (tk : Tick) (c : CaptureEngine.t)
  : option CaptureEngine.CaptureFrame * CaptureEngine.t * list CaptureEngine.Effect :=
  let '(frame, c, fx1) := CaptureEngine.AcquireFrame (acq1 tk) c in
  match frame with
  | Some _ => (frame, c, fx1)
  | None =>
      if CaptureEngine.NeedsReinitialize c then
        let '(ok, c, fx2) := CaptureEngine.Reinitialize (dev tk) c in
        if ok then
          let '(frame, c, fx3) := CaptureEngine.AcquireFrame (acq2 tk) c in
          (frame, c, fx1 ++ fx2 ++ fx3)
        else (None, c, fx1 ++ fx2)
      else (None, c, fx1)
  end.

Definition Update (tk : Tick) (w : World) : Outcome :=
  let '(k, s, fx0) :=
    CheckInactivity (tick_now tk) (module_path_ok tk) (create_process_ok tk)
                    (ctl w) (app w) in
  if negb (magnifier_active_ s) then mkOutcome (mkWorld k s (capture w)) None fx0 []
  else
    let '(frame, c, cfx) := acquire_with_retry tk (capture w) in
    match frame with
    | None =>
        let '(k, fx1) := ApplyCursorBlocking (tick_now tk) (tick_monitor tk) k s in
        mkOutcome (mkWorld k s c) None (fx0 ++ fx1) cfx
    | Some f =>
        let e := mkEnv (tick_now tk) (CaptureEngine.frame_desc_ c)
                       (tick_monitor tk) (tick_putty tk) in
        let s := UpdateViewState e s in
        let '(k, fx1) := ApplyCursorBlocking (tick_now tk) (tick_monitor tk) k s in
        mkOutcome (mkWorld k s c) (Some (f, view_state_ s)) (fx0 ++ fx1) cfx
    end.

(* ------------------------------------------------------------------ *)
(** *** Vocabulary of the further properties *)

(** The terminal alignment: where [putty_alignment_stage] puts the center
    for the anchor [P]. *)
Definition aligned_center (d : Dims) (P : FloatPoint) : F32.float * F32.float :=
  (F32.add (F32.clamp (fx P) zero (F32.sub (frame_width d) (view_width d)))
           (half_w d),
   F32.sub (F32.clamp (fy P) (view_height d) (frame_height d)) (half_h d)).

(** The members [CenterOnCaretNow] never writes. *)
Definition untouched_by_caret_key (s : t) :=
  (source_index_ s, tracking_mode_ s, zoom_ s, view_state_ s, click_state s,
   (messenger_zone_active_ s, messenger_zone_source_ s),
   (end_key_down_ s, end_alignment_active_ s, end_press_tick_ s,
    end_ignore_inputs_until_ s, has_putty_anchor_ s),
   (caret_position_ s, mouse_position_ s, focus_rect_ s,
    last_caret_tick_ s, last_mouse_tick_ s, last_focus_tick_ s)).

(** The Auto rule with the pointer left out. *)
Definition caret_or_focus (e : Env) (s : t) : option (FloatPoint * bool) :=
  match caret_signal e s with
  | Some P => Some (caret_target P, true)
  | None =>
      match focus_signal e s with
      | Some R => Some (R, false)
      | None => None
      end
  end.

(** The tests of the key callback on the virtual key and the message. *)
Definition is_control_key (vk : Z) : bool :=
  (vk =? VK_LCONTROL) || (vk =? VK_RCONTROL) || (vk =? VK_CONTROL).
Definition is_key_down (msg : Z) : bool :=
  (msg =? WM_KEYDOWN) || (msg =? WM_SYSKEYDOWN).
Definition is_key_up (msg : Z) : bool :=
  (msg =? WM_KEYUP) || (msg =? WM_SYSKEYUP).

Definition is_alt_key (vk : Z) : bool :=
  (vk =? VK_MENU) || (vk =? VK_LMENU) || (vk =? VK_RMENU).

(** The Ctrl+Alt block flag is only ever set while both keys are down. *)
Definition keys_consistent (k : Ctl) : bool :=
  implb (ctrl_block_active_ k) (control_down_ k && alt_down_ k).

(** [n] presses of the mode hotkey. *)
Fixpoint cycle_modes (n : nat) (k : Ctl) (s : t) : Ctl * t :=
  match n with
  | O => (k, s)
  | S n' => let '(k, s, _) := CycleTrackingMode k s in cycle_modes n' k s
  end.

(* ------------------------------------------------------------------ *)
(** *** Further scenarios *)

(** Nothing pressed, confinement enabled, modes in step with [mode]. *)
Definition idle_keys (mode : TrackingMode) : Ctl :=
  mkCtl false false false 0 0 false true false mode mode true false.

Definition key_env (now : Z) : Env := env_1080p now.

End App.

(* ================================================================== *)
(** ** magnifier_window.cpp *)

Module MagnifierWindow.

(** The members [DrawCursor] reads; a COM pointer is modelled by whether it
    is set. *)
Record t := mk
  { cursor_visible_ : bool;
    cursor_srv_ : bool;
    pointer_vertex_buffer_ : bool;
    cursor_size_ : SIZE;
    cursor_hotspot_ : POINT;
    window_size_ : SIZE }.

(** The arguments of one [DrawTexturedQuad(cursor_srv_, ...)] call, in
    destination-window pixels. *)
Record Quad := mkQuad
  { left_px : F32.float; top_px : F32.float;
    right_px : F32.float; bottom_px : F32.float }.

(** [DrawCursor(state)]: [None] when the function returns without drawing. *)
Definition DrawCursor (w : t) (state : ViewState) : option Quad :=
  if negb (cursor_visible_ w) || negb (cursor_srv_ w)
     || negb (pointer_vertex_buffer_ w)
  then None
  else
    let r := source_region state in
    let view_width := F32.of_Z (wrap32 (right r - left r)) in
    let view_height := F32.of_Z (wrap32 (bottom r - top r)) in
    if F32.leb view_width App.zero || F32.leb view_height App.zero then None
    else
      let cursor_center_x := cursor_x state in
      let cursor_center_y := cursor_y state in
      if F32.ltb cursor_center_x (F32.of_Z (left r))
         || F32.gtb cursor_center_x (F32.of_Z (right r))
         || F32.ltb cursor_center_y (F32.of_Z (top r))
         || F32.gtb cursor_center_y (F32.of_Z (bottom r))
      then None
      else
        let cursor_left :=
          F32.sub (F32.sub cursor_center_x (F32.of_Z (left r)))
                  (F32.of_Z (pt_x (cursor_hotspot_ w))) in
        let cursor_top :=
          F32.sub (F32.sub cursor_center_y (F32.of_Z (top r)))
                  (F32.of_Z (pt_y (cursor_hotspot_ w))) in
        let scale_x := F32.div (F32.of_Z (cx (window_size_ w))) view_width in
        let scale_y := F32.div (F32.of_Z (cy (window_size_ w))) view_height in
        let left_px := F32.mul cursor_left scale_x in
        let top_px := F32.mul cursor_top scale_y in
        let right_px :=
          F32.add left_px (F32.mul (F32.of_Z (cx (cursor_size_ w))) scale_x) in
        let bottom_px :=
          F32.add top_px (F32.mul (F32.of_Z (cy (cursor_size_ w))) scale_y) in
        if F32.ltb right_px App.zero || F32.ltb bottom_px App.zero
           || F32.gtb left_px (F32.of_Z (cx (window_size_ w)))
           || F32.gtb top_px (F32.of_Z (cy (window_size_ w)))
        then None
        else Some (mkQuad left_px top_px right_px bottom_px).

(* ------------------------------------------------------------------ *)
(** *** Vocabulary of the properties *)

(** The cursor texture and its vertex buffer exist. *)
Definition cursor_ready (w : t) : bool :=
  cursor_visible_ w && cursor_srv_ w && pointer_vertex_buffer_ w.

Definition crop_width (state : ViewState) : F32.float :=
  F32.of_Z (wrap32 (right (source_region state) - left (source_region state))).
Definition crop_height (state : ViewState) : F32.float :=
  F32.of_Z (wrap32 (bottom (source_region state) - top (source_region state))).

(** The cursor position (the hotspot point) lies in the closed crop
    rectangle. *)
Definition cursor_in_crop (state : ViewState) : bool :=
  let r := source_region state in
  negb (F32.ltb (cursor_x state) (F32.of_Z (left r)))
  && negb (F32.gtb (cursor_x state) (F32.of_Z (right r)))
  && negb (F32.ltb (cursor_y state) (F32.of_Z (top r)))
  && negb (F32.gtb (cursor_y state) (F32.of_Z (bottom r))).

(** The glyph rectangle in destination-window pixels: the cursor position
    relative to the crop, minus the hotspot, scaled by window / crop. *)
Definition cursor_quad (w : t) (state : ViewState) : Quad :=
  let r := source_region state in
  let scale_x := F32.div (F32.of_Z (cx (window_size_ w))) (crop_width state) in
  let scale_y := F32.div (F32.of_Z (cy (window_size_ w))) (crop_height state) in
  let left_px :=
    F32.mul (F32.sub (F32.sub (cursor_x state) (F32.of_Z (left r)))
                     (F32.of_Z (pt_x (cursor_hotspot_ w)))) scale_x in
  let top_px :=
    F32.mul (F32.sub (F32.sub (cursor_y state) (F32.of_Z (top r)))
                     (F32.of_Z (pt_y (cursor_hotspot_ w)))) scale_y in
  mkQuad left_px top_px
    (F32.add left_px (F32.mul (F32.of_Z (cx (cursor_size_ w))) scale_x))
    (F32.add top_px (F32.mul (F32.of_Z (cy (cursor_size_ w))) scale_y)).

(** The quad is not entirely outside the window. *)
Definition quad_on_window (w : t) (q : Quad) : bool :=
  negb (F32.ltb (right_px q) App.zero) && negb (F32.ltb (bottom_px q) App.zero)
  && negb (F32.gtb (left_px q) (F32.of_Z (cx (window_size_ w))))
  && negb (F32.gtb (top_px q) (F32.of_Z (cy (window_size_ w)))).

(** In the words of the specification: the glyph rectangle, in source-frame
    pixels, has no point in common with the crop rectangle. *)
Definition glyph_outside_crop (w : t) (state : ViewState) : bool :=
  let r := source_region state in
  let glyph_left := F32.sub (cursor_x state) (F32.of_Z (pt_x (cursor_hotspot_ w))) in
  let glyph_top := F32.sub (cursor_y state) (F32.of_Z (pt_y (cursor_hotspot_ w))) in
  let glyph_right := F32.add glyph_left (F32.of_Z (cx (cursor_size_ w))) in
  let glyph_bottom := F32.add glyph_top (F32.of_Z (cy (cursor_size_ w))) in
  F32.ltb glyph_right (F32.of_Z (left r)) || F32.gtb glyph_left (F32.of_Z (right r))
  || F32.ltb glyph_bottom (F32.of_Z (top r)) || F32.gtb glyph_top (F32.of_Z (bottom r)).

(* ------------------------------------------------------------------ *)
(** *** Scenarios *)

(** A 32x32 arrow with its hotspot at the top-left corner, on a 1920x1080
    destination window. *)
Definition arrow_cursor : t :=
  mk true true true (mkSIZE 32 32) (mkPOINT 0 0) (mkSIZE 1920 1080).

(** The crop [100, 1060] x [100, 640] with the pointer at [(x, 300)]. *)
Definition view_with_cursor_at (x : Z) : ViewState :=
  mkViewState (mkRECT 100 100 1060 640) (F32.of_Z 2) true false
              (F32.of_Z x) (F32.of_Z 300).

End MagnifierWindow.

(* ================================================================== *)
(** ** tracking_manager.cpp *)

Module TrackingManager.

(** [wchar_t] code units; a [std::wstring] is their list. *)
Definition wchar_t := Z.
Definition wstring := list wchar_t.
Definition newline : wchar_t := 10.

Definition kMaxSelectionLength : nat := 4096.

(** The answers of UI Automation. A range of the selection is [None] when
    [GetElement] fails or yields no range, [Some None] when [GetText] fails
    or yields no string, and [Some (Some text)] otherwise. *)
Definition Range := option (option wstring).

Record Element := mkElement
  { (* [GetCurrentPatternAs(UIA_TextPatternId)] then [GetSelection]:
       [None] without a text pattern, [Some None] without a selection array *)
    text_selection : option (option (list Range));
    (* [GetCurrentPatternAs(UIA_ValuePatternId)] then [get_CurrentValue] *)
    value : option (option wstring) }.

Record t := mk
  { automation_ : bool;
    (* [GetFocusedElement] *)
    focused : option Element }.

(** The loop over the selection ranges: [inl] is the early [return] of the
    truncated text, [inr] the text collected when the loop ends. *)
Fixpoint collect (ranges : list Range) (collected : wstring)
  : wstring + wstring :=
  match ranges with
  | [] => inr collected
  | Some (Some text) :: rest =>
      let collected :=
        (match collected with [] => collected | _ => collected ++ [newline] end)
        ++ text in
      if (kMaxSelectionLength <=? List.length collected)%nat
      then inl (firstn kMaxSelectionLength collected)
      else collect rest collected
  | _ :: rest => collect rest collected
  end.

Definition value_text (e : Element) : wstring :=
  match value e with
  | Some (Some text) =>
      if (kMaxSelectionLength <? List.length text)%nat
      then firstn kMaxSelectionLength text else text
  | _ => []
  end.

Definition GetSelectedText (m : t) : wstring :=
  if negb (automation_ m) then []
  else
    match focused m with
    | None => []
    | Some e =>
        match text_selection e with
        | Some (Some ranges) =>
            match collect ranges [] with
            | inl text => text
            | inr [] => value_text e
            | inr collected => collected
            end
        | _ => value_text e
        end
    end.

(* ------------------------------------------------------------------ *)
(** *** Vocabulary of the properties *)

(** The texts of the ranges that yield one, in order. *)
Fixpoint selected_texts (ranges : list Range) : list wstring :=
  match ranges with
  | [] => []
  | Some (Some text) :: rest => text :: selected_texts rest
  | _ :: rest => selected_texts rest
  end.

(** Leading empty texts add nothing (no separator is written while the
    collected text is empty). *)
Fixpoint drop_empty (texts : list wstring) : list wstring :=
  match texts with
  | [] :: rest => drop_empty rest
  | _ => texts
  end.

(** The texts joined with one newline between neighbours. *)
Definition join_lines (texts : list wstring) : wstring :=
  match texts with
  | [] => []
  | text :: rest => text ++ List.concat (map (cons newline) rest)
  end.

Definition truncate (text : wstring) : wstring := firstn kMaxSelectionLength text.

(** The text of the selection, and the text of the value. *)
Definition selection_text (e : Element) : wstring :=
  match text_selection e with
  | Some (Some ranges) => join_lines (drop_empty (selected_texts ranges))
  | _ => []
  end.

Definition element_value (e : Element) : wstring :=
  match value e with Some (Some text) => text | _ => [] end.

(* ------------------------------------------------------------------ *)
(** *** Scenarios *)

(** A focused text element whose selection has the ranges "ab", one without
    text, and "c". *)
Definition two_range_element : Element :=
  mkElement (Some (Some [Some (Some [97; 98]); None; Some (Some [99])])) None.
Definition two_range_selection : t := mk true (Some two_range_element).

End TrackingManager.

(* ================================================================== *)
(** * Properties *)

(** ** Comparisons of binary32 values *)

Module FloatFacts.

Lemma SFcompare_antisym (x y : spec_float) :
  SFcompare y x = option_map CompOpp (SFcompare x y).
Proof.
  destruct x as [sx|sx| |sx mx ex], y as [sy|sy| |sy my ey]; simpl;
    try reflexivity;
    try (destruct sx; reflexivity); try (destruct sy; reflexivity);
    try (destruct sx, sy; reflexivity).
  destruct sx, sy; simpl; try reflexivity;
    rewrite (Z.compare_antisym ex ey);
    destruct (ex ?= ey); simpl; try reflexivity;
    rewrite (Pos.compare_cont_antisym mx my Eq); reflexivity.
Qed.

Lemma SFcompare_refl (x : spec_float) :
  is_nan x = false -> SFcompare x x = Some Eq.
Proof.
  destruct x as [s|s| |s m e]; simpl; intros H; try discriminate;
    try (destruct s; reflexivity).
  destruct s; rewrite Z.compare_refl, Pos.compare_cont_refl; reflexivity.
Qed.

Lemma SFcompare_nan (x y : spec_float) :
  is_nan x = false -> is_nan y = false -> SFcompare x y <> None.
Proof.
  destruct x as [sx|sx| |sx mx ex], y as [sy|sy| |sy my ey]; simpl;
    intros; congruence.
Qed.

Lemma ltb_false_leb (x y : spec_float) :
  is_nan x = false -> is_nan y = false ->
  F32.ltb x y = false -> F32.leb y x = true.
Proof.
  unfold F32.ltb, F32.leb, SFltb, SFleb. intros Hx Hy.
  rewrite (SFcompare_antisym x y).
  pose proof (SFcompare_nan x y Hx Hy) as Hn.
  destruct (SFcompare x y) as [[]|]; simpl; congruence.
Qed.

Lemma leb_refl (x : spec_float) : is_nan x = false -> F32.leb x x = true.
Proof.
  intros H. unfold F32.leb, SFleb. now rewrite (SFcompare_refl x H).
Qed.

Lemma leb_not_nan (x y : spec_float) :
  F32.leb x y = true -> is_nan x = false /\ is_nan y = false.
Proof.
  unfold F32.leb, SFleb.
  destruct x as [sx|sx| |sx mx ex], y as [sy|sy| |sy my ey]; simpl;
    intros; split; congruence.
Qed.

Lemma clamp_bounds (v lo hi : spec_float) :
  F32.leb lo hi = true -> is_nan v = false ->
  F32.leb lo (F32.clamp v lo hi) = true /\ F32.leb (F32.clamp v lo hi) hi = true.
Proof.
  intros Hlh Hv. destruct (leb_not_nan _ _ Hlh) as [Hlo Hhi].
  unfold F32.clamp.
  destruct (F32.ltb v lo) eqn:E1.
  - split; [now apply leb_refl | assumption].
  - destruct (F32.ltb hi v) eqn:E2.
    + split; [assumption | now apply leb_refl].
    + split; now apply ltb_false_leb.
Qed.

Lemma clamp_id (v lo hi : spec_float) :
  F32.ltb v lo = false -> F32.ltb hi v = false -> F32.clamp v lo hi = v.
Proof. unfold F32.clamp. now intros -> ->. Qed.

End FloatFacts.

(* ------------------------------------------------------------------ *)
(** ** Capture source: outcomes of [AcquireFrame] and [Reinitialize] *)

Module CaptureFacts.
Import CaptureEngine.

Lemma timeout_failed : FAILED DXGI_ERROR_WAIT_TIMEOUT = true.
Proof. reflexivity. Qed.

Lemma access_lost_failed : FAILED DXGI_ERROR_ACCESS_LOST = true.
Proof. reflexivity. Qed.

Lemma succeeded_not_dxgi hr :
  FAILED hr = false ->
  (hr =? DXGI_ERROR_WAIT_TIMEOUT) = false /\ (hr =? DXGI_ERROR_ACCESS_LOST) = false.
Proof.
  unfold FAILED. intros H. apply Z.ltb_ge in H.
  split; apply Z.eqb_neq; intros ->; vm_compute in H; apply H; reflexivity.
Qed.

Lemma CreateDuplication_ok env src c c' fx :
  CreateDuplication env src c = (true, c', fx) ->
  duplication_ c' = Some (handle src)
  /\ match_output (handle src) (outputs env) = true
  /\ staging_ c' = true
  /\ device_ c' = device_ c
  /\ source_monitor_ c' = source_monitor_ c
  /\ needs_reinitialize_ c' = needs_reinitialize_ c.
Proof.
  unfold CreateDuplication.
  destruct (as_dxgi_device_ok env); cbn [negb]; [|discriminate].
  destruct (get_adapter_ok env); cbn [negb]; [|discriminate].
  destruct (match_output (handle src) (outputs env)); cbn [negb]; [|discriminate].
  destruct (as_output1_ok env); cbn [negb]; [|discriminate].
  destruct (duplicate_output_ok env); cbn [negb]; [|discriminate].
  destruct (create_texture_ok env); cbn [negb]; [|discriminate].
  intros H. injection H as <- _. cbn. auto 10.
Qed.

Lemma EnsureDevice_ok env c c' fx :
  EnsureDevice env c = (true, c', fx) ->
  device_ c' = true /\ source_monitor_ c' = source_monitor_ c.
Proof.
  unfold EnsureDevice. destruct (device_ c) eqn:Hd.
  - intros H. injection H as <- _. auto.
  - destruct (create_device_ok env); [|discriminate].
    intros H. injection H as <- _. cbn. auto.
Qed.

Lemma Reinitialize_ok env c c' fx :
  Reinitialize env c = (true, c', fx) ->
  NeedsReinitialize c' = false
  /\ source_monitor_ c' = source_monitor_ c
  /\ device_ c' = true /\ staging_ c' = true
  /\ exists src, source_monitor_ c = Some src
       /\ duplication_ c' = Some (handle src)
       /\ match_output (handle src) (outputs env) = true.
Proof.
  unfold Reinitialize. destruct (source_monitor_ c) as [src|] eqn:Hs; [|discriminate].
  destruct (EnsureDevice env c) as [[ok c1] fx1] eqn:He.
  destruct ok; cbn [negb]; [|discriminate].
  apply EnsureDevice_ok in He as [Hd Hm].
  match goal with |- context [CreateDuplication env src ?c0] =>
    destruct (CreateDuplication env src c0) as [[ok2 c2] fx2] eqn:Hc end.
  destruct ok2; cbn [negb]; [|discriminate].
  apply CreateDuplication_ok in Hc as (H1 & H2 & H3 & H4 & H5 & H6). cbn in H4, H5.
  intros H. injection H as <- _. cbn.
  repeat split; try assumption; try congruence.
  exists src. auto.
Qed.

(** C4, as amended. With a live duplication session, [AcquireFrame] treats
    the frame-wait timeout as a non-error: no frame, [NeedsReinitialize()]
    left as it was, session kept. Access lost gives no frame, drops the
    session and sets [NeedsReinitialize()]; so does every other failure code
    of [AcquireNextFrame]. A failure of the texture query on an acquired
    frame gives no frame but keeps the session and leaves the flag as it
    was. The source monitor is kept throughout, and a [Reinitialize()] that
    then succeeds clears the flag and holds a session for that same monitor. *)
Theorem C4_acquire_and_reinitialize (c : t) (dup : HMONITOR) (env : AcquireEnv) :
  duplication_ c = Some dup ->
  let hr := next_frame_hr env in
  let frame := fst (fst (AcquireFrame env c)) in
  let c' := snd (fst (AcquireFrame env c)) in
  (hr = DXGI_ERROR_WAIT_TIMEOUT ->
     frame = None /\ NeedsReinitialize c' = NeedsReinitialize c
     /\ duplication_ c' = Some dup)
  /\ (hr = DXGI_ERROR_ACCESS_LOST ->
     frame = None /\ duplication_ c' = None /\ NeedsReinitialize c' = true)
  /\ (FAILED hr = true -> hr <> DXGI_ERROR_WAIT_TIMEOUT ->
     frame = None /\ duplication_ c' = None /\ NeedsReinitialize c' = true)
  /\ (FAILED hr = false -> as_texture_ok env = false ->
     frame = None /\ NeedsReinitialize c' = NeedsReinitialize c
     /\ duplication_ c' = Some dup)
  /\ source_monitor_ c' = source_monitor_ c
  /\ (forall denv c'' fx,
        Reinitialize denv c' = (true, c'', fx) ->
        NeedsReinitialize c'' = false
        /\ source_monitor_ c'' = source_monitor_ c
        /\ exists src, source_monitor_ c = Some src
             /\ duplication_ c'' = Some (handle src)).
Proof.
  intros Hdup hr frame c'.
  assert (Hmon : source_monitor_ c' = source_monitor_ c).
  { subst c'. unfold AcquireFrame. rewrite Hdup.
    destruct (frame_acquired_ c), (next_frame_hr env =? DXGI_ERROR_WAIT_TIMEOUT),
      (next_frame_hr env =? DXGI_ERROR_ACCESS_LOST), (FAILED (next_frame_hr env)),
      (as_texture_ok env); reflexivity. }
  split; [|split; [|split; [|split; [|split]]]].
  - intros Hhr. subst frame c' hr. unfold AcquireFrame. rewrite Hdup, Hhr.
    destruct (frame_acquired_ c); cbn; auto.
  - intros Hhr. subst frame c' hr. unfold AcquireFrame. rewrite Hdup, Hhr.
    destruct (frame_acquired_ c); cbn; auto.
  - intros Hf Hne. subst frame c' hr. unfold AcquireFrame. rewrite Hdup, Hf.
    apply Z.eqb_neq in Hne. rewrite Hne.
    destruct (frame_acquired_ c), (next_frame_hr env =? DXGI_ERROR_ACCESS_LOST);
      cbn; auto.
  - intros Hf Ha. subst frame c' hr. unfold AcquireFrame. rewrite Hdup, Hf, Ha.
    destruct (succeeded_not_dxgi _ Hf) as [-> ->].
    destruct (frame_acquired_ c); cbn; auto.
  - exact Hmon.
  - intros denv c'' fx Hr.
    apply Reinitialize_ok in Hr as (H1 & H2 & _ & _ & src & H3 & H4 & _).
    split; [exact H1|]. split; [congruence|].
    exists src. split; congruence.
Qed.

(** C4 at the running session: access lost, then a successful
    [Reinitialize()]. *)
Lemma C4_acquire_and_reinitialize_witness :
  fst (fst (AcquireFrame access_lost live_session)) = None
  /\ duplication_ (snd (fst (AcquireFrame access_lost live_session))) = None
  /\ NeedsReinitialize (snd (fst (AcquireFrame access_lost live_session))) = true.
Proof.
  apply (proj1 (proj2 (C4_acquire_and_reinitialize live_session 1 access_lost eq_refl))).
  reflexivity.
Defined.

(** C4 as stated fails: a frame is acquired, the texture query on it fails,
    [AcquireFrame] logs the error and returns no frame, and
    [NeedsReinitialize()] stays false. *)
Lemma C4_texture_query_failure_is_not_flagged :
  fst (fst (AcquireFrame texture_query_fails live_session)) = None
  /\ In (LogError "Failed to query frame texture")
        (snd (AcquireFrame texture_query_fails live_session))
  /\ NeedsReinitialize (snd (fst (AcquireFrame texture_query_fails live_session)))
     = false.
Proof. vm_compute. auto. Qed.

End CaptureFacts.

(* ------------------------------------------------------------------ *)
(** ** Viewport tracker *)

Module TrackerFacts.
Import App FloatFacts.

(** *** Proof steps

    [break_innermost] splits on a conditional whose test contains no other
    conditional; [fields] reduces projections of updated objects; [cases]
    settles a goal that holds branch by branch. *)
Ltac break_innermost :=
  match goal with
  | |- context [match ?x with _ => _ end] =>
      lazymatch x with
      | context [match _ with _ => _ end] => fail
      | _ => destruct x eqn:?
      end
  end.

Ltac fields :=
  cbn [fst snd
       set_view_state_ set_mouse_position_ set_caret_position_ set_focus_rect_
       set_zoom_ set_last_caret_tick_ set_last_caret_target_tick_
       set_last_mouse_tick_ set_last_focus_tick_ set_current_center_x_
       set_current_center_y_ set_has_center_ set_previous_center_x_
       set_previous_center_y_ set_has_previous_center_
       set_previous_center_saved_tick_ set_last_user_activity_tick_
       set_last_click_position_ set_last_click_tick_ set_has_last_click_
       set_click_lock_active_ set_last_click_source_ set_messenger_zone_active_
       set_messenger_zone_source_ set_messenger_anchor_ set_end_alignment_active_
       set_has_putty_anchor_ set_putty_anchor_source_ set_config_zoom set_center
       source_index_ view_state_ mouse_position_ caret_position_ focus_rect_
       zoom_ tracking_mode_ last_caret_tick_ last_caret_target_tick_
       last_mouse_tick_ last_focus_tick_ current_center_x_ current_center_y_
       has_center_ previous_center_x_ previous_center_y_ has_previous_center_
       previous_center_saved_tick_ dead_zone_pixels_ smoothing_factor_
       invert_colors_ last_user_activity_tick_ last_click_position_
       last_click_tick_ has_last_click_ click_lock_active_ last_click_source_
       messenger_zone_active_ messenger_zone_source_ messenger_anchor_
       end_key_down_ end_alignment_active_ end_press_tick_
       end_ignore_inputs_until_ has_putty_anchor_ putty_anchor_source_
       magnifier_active_ has_magnifier config_zoom
       target have_target target_is_caret
       source_region zoom cursor_visible invert_colors cursor_x cursor_y
       center negb andb orb] in *.

Ltac cases := repeat (break_innermost; fields); first [reflexivity | congruence].

(** *** What the choice of the target reads and writes *)

Lemma ScreenToSource_index m s s' pt :
  source_index_ s' = source_index_ s ->
  ScreenToSource m s' pt = ScreenToSource m s pt.
Proof. unfold ScreenToSource. now intros ->. Qed.

Lemma use_caret_core e b s l : core (snd (fst (use_caret e b s l))) = core s.
Proof. unfold use_caret, core. cases. Qed.

Lemma use_mouse_core e b s l : core (snd (fst (use_mouse e b s l))) = core s.
Proof. unfold use_mouse, core. cases. Qed.

Lemma use_focus_core e b s l : core (snd (fst (use_focus e b s l))) = core s.
Proof. unfold use_focus, core. cases. Qed.

Lemma select_target_core e b s l : core (fst (select_target e b s l)) = core s.
Proof.
  unfold select_target.
  pose proof (use_caret_core e b s l) as Hc.
  pose proof (use_mouse_core e b s l) as Hm.
  pose proof (use_focus_core e b s l) as Hf.
  destruct (tracking_mode_ s).
  - destruct (use_caret e b s l) as [[ok s1] l1]; fields.
    destruct ok; fields; [exact Hc|].
    pose proof (use_mouse_core e b s1 l1) as Hm1.
    destruct (use_mouse e b s1 l1) as [[ok2 s2] l2]; fields.
    destruct ok2; fields; [congruence|].
    pose proof (use_focus_core e b s2 l2) as Hf2.
    destruct (use_focus e b s2 l2) as [[ok3 s3] l3]; fields. congruence.
  - destruct (use_caret e b s l) as [[ok s1] l1]; exact Hc.
  - destruct (use_mouse e b s l) as [[ok s1] l1]; exact Hm.
  - destruct (use_focus e b s l) as [[ok s1] l1]; exact Hf.
  - reflexivity.
Qed.

Lemma cursor_stage_core e s : core (cursor_stage e s) = core s.
Proof. unfold cursor_stage, core. cases. Qed.

Lemma resolve_target_core e s : core (fst (resolve_target e s)) = core s.
Proof.
  unfold resolve_target.
  rewrite select_target_core, cursor_stage_core.
  unfold core. cases.
Qed.

Ltac core_eqs H := unfold core in H; injection H; clear H; intros.

(** *** Stale signals *)

Lemma gtb_leb a b : (a >? b) = negb (a <=? b).
Proof. rewrite Z.gtb_ltb, Z.leb_antisym, negb_involutive. reflexivity. Qed.

(** Without a fresh signal no target is chosen. *)
Lemma select_target_stale e b s l :
  signal_fresh e s = false -> have_target l = false ->
  have_target (snd (select_target e b s l)) = false.
Proof.
  unfold signal_fresh, caret_fresh, mouse_fresh, focus_fresh, select_target,
    use_caret, use_mouse, use_focus.
  intros H Hl.
  destruct (tracking_mode_ s) eqn:Hm; fields.
  - apply orb_false_elim in H as [H H3]. apply orb_false_elim in H as [H1 H2].
    destruct b; fields; try assumption.
    rewrite gtb_leb, H1. fields. rewrite gtb_leb, H2. fields.
    rewrite gtb_leb, H3. fields. assumption.
  - destruct b; fields; try assumption. rewrite gtb_leb, H. fields. assumption.
  - destruct b; fields; try assumption. rewrite gtb_leb, H. fields. assumption.
  - destruct b; fields; try assumption. rewrite gtb_leb, H. fields. assumption.
  - reflexivity.
Qed.

Lemma signal_fresh_core e s1 s :
  core s1 = core s -> signal_fresh e s1 = signal_fresh e s.
Proof.
  intros H. core_eqs H.
  unfold signal_fresh, caret_fresh, mouse_fresh, focus_fresh.
  repeat match goal with E : _ = _ |- _ => rewrite E; clear E end.
  reflexivity.
Qed.

Lemma expire_anchor_core (c : bool) s :
  core (if c then set_has_putty_anchor_ false s else s) = core s.
Proof. destruct c; reflexivity. Qed.

Lemma resolve_target_stale e s :
  signal_fresh e s = false -> have_target (snd (resolve_target e s)) = false.
Proof.
  intros H. unfold resolve_target. apply select_target_stale; [|reflexivity].
  transitivity (signal_fresh e s); [|exact H]. apply signal_fresh_core.
  rewrite cursor_stage_core. apply expire_anchor_core.
Qed.

(** With no terminal anchor in play the second half is adoption, the two
    clamps and the crop rectangle. *)
Lemma adopt_target_no_anchor e l s :
  end_key_down_ s = false -> end_alignment_active_ s = false ->
  adopt_target e l s =
  let d := view_dims (frame_desc e) (zoom_ s) in
  region_stage d (frame_clamp_stage d (messenger_stage d (center_stage e l s))).
Proof.
  intros H1 H2.
  unfold adopt_target, putty_anchor_stage, end_alignment_stage, putty_alignment_stage.
  rewrite H1, H2. fields. rewrite H1, H2. fields. rewrite H2. fields. reflexivity.
Qed.

Lemma point_in_frame_clamp d x y :
  point_in_frame d x y = true ->
  F32.clamp x (half_w d) (F32.sub (frame_width d) (half_w d)) = x /\
  F32.clamp y (half_h d) (F32.sub (frame_height d) (half_h d)) = y.
Proof.
  unfold point_in_frame. intros H.
  apply andb_prop in H as [H H4]. apply andb_prop in H as [H H3].
  apply andb_prop in H as [H1 H2].
  apply negb_true_iff in H1, H2, H3, H4.
  split; apply clamp_id; assumption.
Qed.

(** The choice of the target leaves the cursor overlay of [cursor_stage]. *)
Lemma select_target_view e b s l :
  view_state_ (fst (select_target e b s l)) = view_state_ s.
Proof. unfold select_target, use_caret, use_mouse, use_focus. cases. Qed.

Lemma resolve_target_view e s :
  let v := view_state_ (fst (resolve_target e s)) in
  (cursor_visible v, cursor_x v, cursor_y v) = cursor_overlay e s
  /\ invert_colors v = invert_colors_ s.
Proof.
  unfold resolve_target. rewrite select_target_view.
  unfold cursor_stage, cursor_overlay.
  set (s0 := if negb (end_key_down_ s) && (end_ignore_inputs_until_ s <=? now e)
             then set_has_putty_anchor_ false s else s).
  pose proof (expire_anchor_core
                (negb (end_key_down_ s) && (end_ignore_inputs_until_ s <=? now e)) s)
    as H0.
  fold s0 in H0.
  assert (Hi : invert_colors_ s0 = invert_colors_ s).
  { subst s0. destruct (negb (end_key_down_ s) && _); reflexivity. }
  core_eqs H0.
  rewrite (ScreenToSource_index (source_monitor e) s s0) by assumption.
  replace (mouse_position_ s0) with (mouse_position_ s) by congruence.
  destruct (ScreenToSource (source_monitor e) s (mouse_position_ s)); fields; auto.
Qed.

Lemma center_stage_hold e l s :
  has_center_ s = true -> have_target l = false -> center_stage e l s = s.
Proof. unfold center_stage. intros -> ->. reflexivity. Qed.

Lemma messenger_stage_inactive d s :
  messenger_zone_active_ s = false -> messenger_stage d s = s.
Proof. unfold messenger_stage. intros ->. reflexivity. Qed.

Lemma center_stage_dead_zone e l s :
  has_center_ s = true -> have_target l = true -> target_is_caret l = false ->
  in_dead_zone (target l) s = true ->
  center_stage e l s = s.
Proof.
  unfold center_stage, in_dead_zone, distance_to. intros -> -> -> H.
  apply negb_true_iff in H. fields. cbv zeta. rewrite H. reflexivity.
Qed.

Lemma messenger_stage_valid d s :
  center_in_zone d s = true ->
  center (messenger_stage d s) = center s
  /\ center_in_zone d (messenger_stage d s) = true
  /\ steady (messenger_stage d s) = steady s.
Proof.
  unfold center_in_zone, messenger_stage, steady.
  destruct (messenger_zone_active_ s) eqn:Ha; [|intros _; rewrite Ha; auto].
  match goal with |- context [if ?c then _ else _] => destruct c eqn:Hr end.
  - intros H.
    apply andb_prop in H as [H H4]. apply andb_prop in H as [H H3].
    apply andb_prop in H as [H1 H2].
    pose proof H1 as H1'. pose proof H2 as H2'.
    pose proof H3 as H3'. pose proof H4 as H4'.
    apply negb_true_iff in H1, H2, H3, H4.
    fields. rewrite Ha, Hr. rewrite !clamp_id by assumption.
    rewrite H1', H2', H3', H4'. auto.
  - intros _. fields. auto.
Qed.

Lemma frame_clamp_stage_valid d s :
  point_in_frame d (current_center_x_ s) (current_center_y_ s) = true ->
  center (frame_clamp_stage d s) = center s
  /\ center_in_zone d (frame_clamp_stage d s) = center_in_zone d s
  /\ steady (frame_clamp_stage d s) = steady s.
Proof.
  intros H. destruct (point_in_frame_clamp _ _ _ H) as [Hx Hy].
  unfold frame_clamp_stage, center_in_zone, steady. fields.
  rewrite Hx, Hy. auto.
Qed.

Lemma region_stage_valid d d' s :
  center (region_stage d s) = center s
  /\ center_in_zone d' (region_stage d s) = center_in_zone d' s
  /\ steady (region_stage d s) = steady s.
Proof. unfold region_stage, center_in_zone, steady. fields. auto. Qed.

Ltac steady_eqs H := unfold steady in H; injection H; clear H; intros.

Lemma point_in_frame_center d s s' :
  center s' = center s ->
  point_in_frame d (current_center_x_ s') (current_center_y_ s')
  = point_in_frame d (current_center_x_ s) (current_center_y_ s).
Proof. unfold center. intros H. injection H as -> ->. reflexivity. Qed.

Lemma center_in_zone_core d s s' :
  core s' = core s -> center_in_zone d s' = center_in_zone d s.
Proof.
  intros H. core_eqs H. unfold center_in_zone.
  repeat match goal with E : _ = _ |- _ => rewrite E; clear E end.
  reflexivity.
Qed.

Lemma dead_zone_step (e : Env) (s : t) (p : FloatPoint) :
  0 <= source_index_ s ->
  Width (frame_desc e) <> 0 -> Height (frame_desc e) <> 0 ->
  has_center_ s = true ->
  end_key_down_ s = false -> end_alignment_active_ s = false ->
  center_valid (view_dims (frame_desc e) (zoom_ s)) s = true ->
  chosen_target e s = Some (p, false) ->
  in_dead_zone p s = true ->
  let s' := UpdateViewState e s in
  center s' = center s
  /\ steady s' = steady s
  /\ center_valid (view_dims (frame_desc e) (zoom_ s)) s' = true.
Proof.
  intros Hidx HW HH Hc Hk Ha Hv Ht Hd s'.
  assert (Hs' : s' = let '(s2, l) := resolve_target e s in adopt_target e l s2).
  { subst s'. unfold UpdateViewState.
    destruct (source_index_ s <? 0) eqn:E; [apply Z.ltb_lt in E; lia|].
    apply Z.eqb_neq in HW, HH. rewrite HW, HH. reflexivity. }
  pose proof (resolve_target_core e s) as Hcore.
  unfold chosen_target, sel_choice in Ht.
  destruct (resolve_target e s) as [s2 l]. fields.
  destruct (have_target l) eqn:Hl; [|discriminate].
  injection Ht as Hp Hcaret.
  pose proof (center_in_zone_core (view_dims (frame_desc e) (zoom_ s)) _ _ Hcore) as Hz.
  core_eqs Hcore.
  set (d := view_dims (frame_desc e) (zoom_ s)) in *.
  apply andb_prop in Hv as [Hpf Hcz].
  assert (Hcs : center_stage e l s2 = s2).
  { apply center_stage_dead_zone; try congruence.
    rewrite Hp. unfold in_dead_zone, distance_to in *.
    replace (current_center_x_ s2) with (current_center_x_ s) by congruence.
    replace (current_center_y_ s2) with (current_center_y_ s) by congruence.
    replace (dead_zone_pixels_ s2) with (dead_zone_pixels_ s) by congruence.
    exact Hd. }
  assert (Hadopt : s' = region_stage d (frame_clamp_stage d (messenger_stage d s2))).
  { rewrite Hs', adopt_target_no_anchor by congruence.
    replace (zoom_ s2) with (zoom_ s) by congruence. fold d. cbv zeta.
    rewrite Hcs. reflexivity. }
  assert (Hc2 : center s2 = center s) by (unfold center; congruence).
  assert (Hst2 : steady s2 = steady s) by (unfold steady; congruence).
  destruct (messenger_stage_valid d s2) as (Hm1 & Hm2 & Hm3); [congruence|].
  destruct (frame_clamp_stage_valid d (messenger_stage d s2)) as (Hf1 & Hf2 & Hf3).
  { rewrite (point_in_frame_center d s (messenger_stage d s2)) by congruence.
    exact Hpf. }
  destruct (region_stage_valid d d (frame_clamp_stage d (messenger_stage d s2)))
    as (Hr1 & Hr2 & Hr3).
  rewrite Hadopt.
  assert (Hcenter : center (region_stage d (frame_clamp_stage d (messenger_stage d s2)))
                    = center s) by congruence.
  repeat split.
  - exact Hcenter.
  - congruence.
  - unfold center_valid. apply andb_true_intro. split.
    + rewrite (point_in_frame_center d s _ Hcenter). exact Hpf.
    + congruence.
Qed.

Lemma in_dead_zone_center p s s' :
  center s' = center s -> steady s' = steady s ->
  in_dead_zone p s' = in_dead_zone p s.
Proof.
  unfold center, in_dead_zone, distance_to. intros Hc Hs.
  injection Hc as -> ->. steady_eqs Hs. congruence.
Qed.

(** *** The caret snap *)

Lemma use_caret_fresh e s l P :
  caret_fresh e s = true ->
  ScreenToSource (source_monitor e) s (caret_position_ s) = Some P ->
  use_caret e false s l
  = (true, set_last_caret_target_tick_ (now e) s, mkSel (caret_target P) true true).
Proof.
  unfold use_caret, caret_fresh. intros Hf Hp.
  rewrite gtb_leb, Hf, Hp. reflexivity.
Qed.

Lemma resolve_target_caret e s P :
  tracking_mode_ s = Auto \/ tracking_mode_ s = Caret ->
  end_ignore_inputs_until_ s <= now e ->
  end_alignment_active_ s = false ->
  caret_fresh e s = true ->
  ScreenToSource (source_monitor e) s (caret_position_ s) = Some P ->
  snd (resolve_target e s) = mkSel (caret_target P) true true
  /\ last_caret_target_tick_ (fst (resolve_target e s)) = now e.
Proof.
  intros Hm Hi Ha Hf Hp. unfold resolve_target.
  set (s0 := if negb (end_key_down_ s) && (end_ignore_inputs_until_ s <=? now e)
             then set_has_putty_anchor_ false s else s).
  assert (H0 : core s0 = core s) by apply expire_anchor_core.
  pose proof (cursor_stage_core e s0) as H1.
  set (s1 := cursor_stage e s0) in *.
  assert (Hc : core s1 = core s) by congruence.
  assert (Hsup : (now e <? end_ignore_inputs_until_ s0) || end_alignment_active_ s0 = false).
  { core_eqs H0. apply orb_false_intro; [|congruence].
    apply Z.ltb_ge. congruence. }
  rewrite Hsup. clear H0 H1 Hsup. core_eqs Hc.
  assert (Hf1 : caret_fresh e s1 = true) by (unfold caret_fresh in *; congruence).
  assert (Hp1 : ScreenToSource (source_monitor e) s1 (caret_position_ s1) = Some P).
  { rewrite (ScreenToSource_index _ s s1) by congruence. congruence. }
  unfold select_target.
  rewrite (use_caret_fresh e s1 _ P Hf1 Hp1).
  replace (tracking_mode_ s1) with (tracking_mode_ s) by congruence.
  destruct Hm as [-> | ->]; fields; auto.
Qed.

Lemma record_previous_center_unsnapped dist now s :
  unsnapped (record_previous_center dist now s) = unsnapped s
  /\ has_center_ (record_previous_center dist now s) = has_center_ s.
Proof. unfold record_previous_center, unsnapped, steady. split; cases. Qed.

Lemma SnapCenterTo_ignore m x y now s :
  has_center_ s = true ->
  center (SnapCenterTo m x y now true s) = (x, y)
  /\ has_center_ (SnapCenterTo m x y now true s) = true
  /\ (source_index_ (SnapCenterTo m x y now true s), zoom_ (SnapCenterTo m x y now true s),
      messenger_zone_active_ (SnapCenterTo m x y now true s),
      last_caret_target_tick_ (SnapCenterTo m x y now true s))
     = (source_index_ s, zoom_ s, messenger_zone_active_ s, last_caret_target_tick_ s).
Proof.
  intros Hc. unfold SnapCenterTo. fields. rewrite Hc. fields.
  destruct (record_previous_center_unsnapped (distance_to x y s) now s) as [Hu _].
  unfold unsnapped, steady in Hu. injection Hu; intros.
  repeat split; fields; congruence.
Qed.

(** *** The Auto rule *)

Lemma select_target_auto e s l0 :
  tracking_mode_ s = Auto ->
  have_target l0 = false -> target_is_caret l0 = false ->
  sel_choice (snd (select_target e false s l0)) = auto_choice e s
  /\ last_caret_target_tick_ (fst (select_target e false s l0)) = auto_caret_tick e s.
Proof.
  intros Hm H0 H1.
  unfold select_target, auto_choice, auto_caret_tick, caret_signal,
    pointer_signal, focus_signal, caret_fresh, mouse_fresh, focus_fresh,
    use_caret, use_mouse, use_focus, sel_choice.
  rewrite Hm. fields. rewrite !gtb_leb.
  destruct (sub64 (now e) (last_caret_tick_ s) <=? kCaretFollowTimeoutMs); fields;
    [destruct (ScreenToSource (source_monitor e) s (caret_position_ s)); fields;
     [auto|] |].
  all: rewrite Hm; fields; rewrite !gtb_leb, (Z.leb_antisym (last_caret_target_tick_ s));
    destruct (sub64 (now e) (last_mouse_tick_ s) <=? kMouseFollowTimeoutMs); fields;
    destruct (last_caret_target_tick_ s <? last_mouse_tick_ s); fields;
    try (destruct (ScreenToSource (source_monitor e) s (mouse_position_ s)); fields;
         [auto|]).
  all: rewrite !gtb_leb;
    destruct (sub64 (now e) (last_focus_tick_ s) <=? kFocusFollowTimeoutMs); fields;
    try (destruct (ScreenToSource (source_monitor e) s (rect_center (focus_rect_ s)));
         fields);
    rewrite ?H0; auto.
Qed.

Lemma resolve_target_unsuppressed e s :
  end_ignore_inputs_until_ s <= now e ->
  end_alignment_active_ s = false ->
  exists s1,
    resolve_target e s = select_target e false s1 (default_target (frame_desc e))
    /\ core s1 = core s
    /\ last_caret_target_tick_ s1 = last_caret_target_tick_ s.
Proof.
  intros Hi Ha. unfold resolve_target.
  set (s0 := if negb (end_key_down_ s) && (end_ignore_inputs_until_ s <=? now e)
             then set_has_putty_anchor_ false s else s).
  assert (H0 : core s0 = core s) by apply expire_anchor_core.
  assert (T0 : last_caret_target_tick_ s0 = last_caret_target_tick_ s).
  { subst s0. destruct (negb (end_key_down_ s) && _); reflexivity. }
  exists (cursor_stage e s0). repeat split.
  - replace ((now e <? end_ignore_inputs_until_ s0) || end_alignment_active_ s0)
      with false; [reflexivity|].
    core_eqs H0. symmetry. apply orb_false_intro; [|congruence].
    apply Z.ltb_ge. congruence.
  - rewrite cursor_stage_core. exact H0.
  - rewrite <- T0. unfold cursor_stage. cases.
Qed.

Lemma auto_choice_core e s1 s :
  core s1 = core s ->
  last_caret_target_tick_ s1 = last_caret_target_tick_ s ->
  auto_choice e s1 = auto_choice e s /\ auto_caret_tick e s1 = auto_caret_tick e s.
Proof.
  intros H T. core_eqs H.
  unfold auto_choice, auto_caret_tick, caret_signal, pointer_signal, focus_signal,
    caret_fresh, mouse_fresh, focus_fresh.
  rewrite !(ScreenToSource_index (source_monitor e) s s1) by assumption.
  repeat match goal with E : _ = _ |- _ => rewrite E; clear E end.
  auto.
Qed.

(** *** Click-lock and zoom steps *)

Lemma OnMouseLeftClick_click_state m T msg pt s :
  click_state (OnMouseLeftClick m T msg pt s) = (true, true, ScreenToSource m s pt, T).
Proof.
  unfold OnMouseLeftClick, click_state, MarkUserActivity.
  repeat (break_innermost; fields);
    rewrite ?(ScreenToSource_index m s) by reflexivity; reflexivity.
Qed.



(** *** One resolution, stage by stage *)

Lemma UpdateViewState_steps e s :
  0 <= source_index_ s ->
  Width (frame_desc e) <> 0 -> Height (frame_desc e) <> 0 ->
  UpdateViewState e s
  = adopt_target e (snd (resolve_target e s)) (fst (resolve_target e s)).
Proof.
  intros Hidx HW HH. unfold UpdateViewState.
  destruct (source_index_ s <? 0) eqn:E; [apply Z.ltb_lt in E; lia|].
  apply Z.eqb_neq in HW, HH. rewrite HW, HH. cbn [orb].
  destruct (resolve_target e s); reflexivity.
Qed.

Lemma frame_clamp_center d s :
  center (region_stage d (frame_clamp_stage d s)) = clamped d (center s).
Proof. unfold region_stage, frame_clamp_stage, clamped. fields. reflexivity. Qed.

(** A resolution that chooses nothing keeps the frame middle as its
    target. *)
Lemma select_target_default e b s l :
  have_target l = false ->
  have_target (snd (select_target e b s l)) = false ->
  target (snd (select_target e b s l)) = target l.
Proof.
  unfold select_target, use_caret, use_mouse, use_focus. intros Hl.
  repeat (break_innermost; fields); intros; first [reflexivity | congruence].
Qed.

Lemma adopted_target_sel e s :
  adopted_target e s
  = (fx (target (snd (resolve_target e s))), fy (target (snd (resolve_target e s)))).
Proof.
  unfold adopted_target, chosen_target, sel_choice.
  destruct (have_target (snd (resolve_target e s))) eqn:H; [reflexivity|].
  unfold resolve_target in *. rewrite select_target_default by (reflexivity || exact H).
  reflexivity.
Qed.

(** *** The click movement limit inside a resolution *)

Lemma ApplyClickMovementLimit_armed m x y now s C T :
  click_state s = (true, true, Some C, T) ->
  ApplyClickMovementLimit m x y now s
  = (fst (limited C (click_limit now T) (x, y)),
     snd (limited C (click_limit now T) (x, y)), s).
Proof.
  unfold click_state. intros H. injection H as H1 H2 H3 H4.
  unfold ApplyClickMovementLimit, limited. rewrite H1, H2, H3, H4. fields.
  fold (click_limit now T).
  destruct (F32.leb (click_limit now T) zero); reflexivity.
Qed.

Lemma ApplyClickMovementLimit_off m x y now s :
  click_lock_off s = true -> ApplyClickMovementLimit m x y now s = (x, y, s).
Proof.
  unfold click_lock_off, ApplyClickMovementLimit. intros ->. reflexivity.
Qed.

Section Adoption.
Variables (e : Env) (s : t).
Hypothesis Hidx : 0 <= source_index_ s.
Hypothesis HW : Width (frame_desc e) <> 0.
Hypothesis HH : Height (frame_desc e) <> 0.
Hypothesis Hk : end_key_down_ s = false.
Hypothesis Ha : end_alignment_active_ s = false.
Hypothesis Hz : messenger_zone_active_ s = false.

(** The first snap: with no center established, the adopted target passes
    through the click movement limit and the frame clamp. *)
Lemma first_snap_center :
  has_center_ s = false ->
  (click_lock_off s = true ->
   center (UpdateViewState e s)
   = clamped (view_dims (frame_desc e) (zoom_ s)) (adopted_target e s))
  /\ (forall C T, click_state s = (true, true, Some C, T) ->
      center (UpdateViewState e s)
      = clamped (view_dims (frame_desc e) (zoom_ s))
                (limited C (click_limit (now e) T) (adopted_target e s))).
Proof.
  intros Hc.
  rewrite UpdateViewState_steps by assumption.
  rewrite adopted_target_sel.
  pose proof (resolve_target_core e s) as Hcore.
  destruct (resolve_target e s) as [s2 l]. fields.
  assert (Hcs : click_state s2 = click_state s).
  { unfold click_state. core_eqs Hcore. congruence. }
  assert (Hoff : click_lock_off s2 = click_lock_off s).
  { unfold click_lock_off. core_eqs Hcore. congruence. }
  core_eqs Hcore.
  rewrite adopt_target_no_anchor by congruence.
  replace (zoom_ s2) with (zoom_ s) by congruence. cbv zeta.
  unfold center_stage. replace (has_center_ s2) with false by congruence.
  fields. unfold SnapCenterTo. fields.
  split.
  - intros Hl. rewrite ApplyClickMovementLimit_off by congruence.
    replace (has_center_ s2) with false by congruence. fields.
    rewrite messenger_stage_inactive by (fields; congruence).
    rewrite frame_clamp_center. reflexivity.
  - intros C T Hst.
    rewrite (ApplyClickMovementLimit_armed _ _ _ _ _ C T) by congruence.
    replace (has_center_ s2) with false by congruence. fields.
    rewrite messenger_stage_inactive by (fields; congruence).
    rewrite frame_clamp_center. unfold center. fields.
    destruct (limited C (click_limit (now e) T) _); reflexivity.
Qed.

(** The smoothed step: a non-caret target outside the dead zone moves the
    center by the smoothing factor, through the click movement limit and
    the frame clamp. *)
Lemma smoothed_step_center p :
  has_center_ s = true ->
  chosen_target e s = Some (p, false) ->
  in_dead_zone p s = false ->
  (click_lock_off s = true ->
   center (UpdateViewState e s)
   = clamped (view_dims (frame_desc e) (zoom_ s)) (smoothed p s))
  /\ (forall C T, click_state s = (true, true, Some C, T) ->
      center (UpdateViewState e s)
      = clamped (view_dims (frame_desc e) (zoom_ s))
                (limited C (click_limit (now e) T) (smoothed p s))
      /\ click_state (UpdateViewState e s) = click_state s).
Proof.
  intros Hc Ht Hdz.
  rewrite UpdateViewState_steps by assumption.
  pose proof (resolve_target_core e s) as Hcore.
  unfold chosen_target, sel_choice in Ht.
  destruct (resolve_target e s) as [s2 l]. fields.
  destruct (have_target l) eqn:Hl; [|discriminate].
  injection Ht as Hp Hcaret.
  assert (Hcs : click_state s2 = click_state s).
  { unfold click_state. core_eqs Hcore. congruence. }
  assert (Hoff : click_lock_off s2 = click_lock_off s).
  { unfold click_lock_off. core_eqs Hcore. congruence. }
  core_eqs Hcore.
  rewrite adopt_target_no_anchor by congruence.
  replace (zoom_ s2) with (zoom_ s) by congruence. cbv zeta.
  unfold center_stage. replace (has_center_ s2) with true by congruence.
  fields. rewrite Hl, Hcaret, Hp.
  assert (Hgt : F32.gtb (distance_to (fx p) (fy p) s2) (dead_zone_pixels_ s2) = true).
  { unfold in_dead_zone, distance_to in Hdz. apply negb_false_iff in Hdz.
    unfold distance_to.
    replace (current_center_x_ s2) with (current_center_x_ s) by congruence.
    replace (current_center_y_ s2) with (current_center_y_ s) by congruence.
    replace (dead_zone_pixels_ s2) with (dead_zone_pixels_ s) by congruence.
    exact Hdz. }
  unfold distance_to in Hgt. rewrite Hgt.
  match goal with |- context [record_previous_center ?dist ?n s2] =>
    set (s3 := record_previous_center dist n s2) end.
  assert (Hrec : click_state s3 = click_state s2 /\ click_lock_off s3 = click_lock_off s2
               /\ center s3 = center s2 /\ smoothing_factor_ s3 = smoothing_factor_ s2
               /\ messenger_zone_active_ s3 = messenger_zone_active_ s2).
  { subst s3. unfold record_previous_center, click_state, click_lock_off.
    repeat split; cases. }
  destruct Hrec as (H3a & H3b & H3c & H3d & H3e).
  unfold center in H3c. injection H3c as H3x H3y.
  assert (Hsm : (F32.add (current_center_x_ s3)
                   (F32.mul (F32.sub (fx p) (current_center_x_ s2)) (smoothing_factor_ s3)),
                 F32.add (current_center_y_ s3)
                   (F32.mul (F32.sub (fy p) (current_center_y_ s2)) (smoothing_factor_ s3)))
                = smoothed p s).
  { unfold smoothed. congruence. }
  injection Hsm as Hsx Hsy. rewrite Hsx, Hsy.
  split.
  - intros Hlo. rewrite ApplyClickMovementLimit_off by congruence.
    rewrite messenger_stage_inactive by (fields; congruence).
    rewrite frame_clamp_center. reflexivity.
  - intros C T Hst.
    rewrite (ApplyClickMovementLimit_armed _ _ _ _ _ C T) by congruence.
    rewrite messenger_stage_inactive by (fields; congruence).
    rewrite frame_clamp_center.
    split.
    + unfold center. fields. destruct (limited C (click_limit (now e) T) _); reflexivity.
    + unfold click_state, region_stage, frame_clamp_stage. fields.
      unfold click_state in H3a, Hcs, Hst. congruence.
Qed.

End Adoption.







(** *** The claims

    [evaluate] settles a closed side condition by computation. *)
Ltac evaluate :=
  first [ vm_compute; reflexivity
        | vm_compute; discriminate
        | vm_compute; intro; discriminate
        | vm_compute; auto ].

(** C1. One resolution at zoom 3.5 on the 1920x1080 frame, the pointer at
    the right edge of the screen and no center established yet (a zoom step
    has just been taken): the center is clamped to [frame_width - half_w],
    and the right edge of the crop, [ceil(left + view_width)], is 1921,
    one column beyond the frame. *)
Theorem C1_crop_exceeds_frame_at_right_edge :
  zoom_ right_edge_state = F32.lit 35 10
  /\ F32.leb kMinZoom (zoom_ right_edge_state) = true
  /\ F32.leb (zoom_ right_edge_state) kMaxZoom = true
  /\ frame_desc (env_1080p 1000) = mkDesc 1920 1080
  /\ source_region (view_state_ (UpdateViewState (env_1080p 1000) right_edge_state))
     = mkRECT 1371 345 1921 655.
Proof. vm_compute. auto 10. Qed.

(** C2, as amended. In Auto or Caret mode, with inputs not suppressed, no
    terminal anchor and no messenger zone, a caret signal that is fresh
    (within 600 ms) and maps to the source point [P] makes one resolution
    snap an established center to [P] plus the 4-pixel offset, whatever the
    previous center, the dead zone and the click lock; the snapped point is
    then clamped into the frame, so the resolved center is exactly
    [(P.x + 4, P.y)] when that point needs no clamping. *)
Theorem C2_caret_snap (e : Env) (s : t) (P : FloatPoint) :
  Width (frame_desc e) <> 0 -> Height (frame_desc e) <> 0 ->
  tracking_mode_ s = Auto \/ tracking_mode_ s = Caret ->
  end_ignore_inputs_until_ s <= now e ->
  end_key_down_ s = false -> end_alignment_active_ s = false ->
  messenger_zone_active_ s = false ->
  has_center_ s = true ->
  caret_fresh e s = true ->
  ScreenToSource (source_monitor e) s (caret_position_ s) = Some P ->
  let d := view_dims (frame_desc e) (zoom_ s) in
  let s' := UpdateViewState e s in
  let x := F32.add (fx P) (F32.of_Z 4) in
  current_center_x_ s' = F32.clamp x (half_w d) (F32.sub (frame_width d) (half_w d))
  /\ current_center_y_ s'
     = F32.clamp (fy P) (half_h d) (F32.sub (frame_height d) (half_h d))
  /\ (point_in_frame d x (fy P) = true -> center s' = (x, fy P))
  /\ last_caret_target_tick_ s' = now e.
Proof.
  intros HW HH Hm Hi Hk Ha Hz Hc Hf Hp d s' x.
  assert (Hidx : (source_index_ s <? 0) = false).
  { unfold ScreenToSource in Hp. destruct (source_index_ s <? 0); congruence. }
  assert (Hs' : s' = let '(s2, l) := resolve_target e s in adopt_target e l s2).
  { subst s'. unfold UpdateViewState. rewrite Hidx.
    apply Z.eqb_neq in HW, HH. rewrite HW, HH. reflexivity. }
  pose proof (resolve_target_core e s) as Hcore.
  destruct (resolve_target_caret e s P Hm Hi Ha Hf Hp) as [Hl Htick].
  destruct (resolve_target e s) as [s2 l]. fields. subst l. core_eqs Hcore.
  destruct (SnapCenterTo_ignore (source_monitor e) x (fy P) (now e) s2)
    as (Hsc & Hsh & Hsf); [congruence|].
  remember (SnapCenterTo (source_monitor e) x (fy P) (now e) true s2) as s3 eqn:Es3.
  injection Hsf as Hs_idx Hs_zoom Hs_msg Hs_tick.
  assert (Hadopt : s' = region_stage d (frame_clamp_stage d s3)).
  { rewrite Hs', adopt_target_no_anchor by congruence.
    replace (zoom_ s2) with (zoom_ s) by congruence. fold d. cbv zeta.
    unfold center_stage. replace (has_center_ s2) with true by congruence.
    fields. unfold caret_target. cbn [fx fy]. fold x. rewrite <- Es3.
    rewrite messenger_stage_inactive by congruence. reflexivity. }
  unfold center in Hsc. injection Hsc as Hsx Hsy.
  assert (Hx : current_center_x_ s'
     = F32.clamp x (half_w d) (F32.sub (frame_width d) (half_w d))).
  { rewrite Hadopt. unfold region_stage, frame_clamp_stage. fields. congruence. }
  assert (Hy : current_center_y_ s'
     = F32.clamp (fy P) (half_h d) (F32.sub (frame_height d) (half_h d))).
  { rewrite Hadopt. unfold region_stage, frame_clamp_stage. fields. congruence. }
  repeat split.
  - exact Hx.
  - exact Hy.
  - intros Hin. apply point_in_frame_clamp in Hin as [Hcx Hcy].
    unfold center. rewrite Hx, Hy, Hcx, Hcy. reflexivity.
  - rewrite Hadopt. unfold region_stage, frame_clamp_stage. fields. congruence.
Qed.

(** C2 at a caret inside the clamp range, with the click-lock armed at
    (100, 100): the center lands on (704, 500). *)
Lemma C2_caret_snap_witness :
  center (UpdateViewState (env_1080p 1000) caret_inside_state)
  = (F32.of_Z 704, F32.of_Z 500).
Proof.
  refine (proj1 (proj2 (proj2
    (C2_caret_snap (env_1080p 1000) caret_inside_state
       (mkFloatPoint (F32.of_Z 700) (F32.of_Z 500)) _ _ _ _ _ _ _ _ _ _))) _);
    evaluate.
Defined.

(** C2 as stated fails: in Caret mode at zoom 2 a fresh caret at screen
    point (10, 500) maps to [P = (10, 500)], and the resolved center is
    x = 480, the left clamp bound, not 14. *)
Lemma C2_caret_near_edge_is_clamped :
  tracking_mode_ caret_left_edge_state = Caret
  /\ caret_signal (env_1080p 1000) caret_left_edge_state
     = Some (mkFloatPoint (F32.of_Z 10) (F32.of_Z 500))
  /\ current_center_x_ (UpdateViewState (env_1080p 1000) caret_left_edge_state)
     = F32.of_Z 480
  /\ current_center_x_ (UpdateViewState (env_1080p 1000) caret_left_edge_state)
     <> F32.add (F32.of_Z 10) (F32.of_Z 4).
Proof. vm_compute. repeat split; try reflexivity. discriminate. Qed.

(** C3, as amended. In Auto mode with inputs not suppressed, one resolution
    chooses by the table [auto_choice]: the caret target whenever the caret
    signal is fresh and on the source monitor, whatever the pointer did;
    else the pointer target when the pointer signal is fresh, on the source
    monitor and its tick is strictly newer than the last caret-driven
    resolution; else the focus target when fresh. A caret choice stamps
    [last_caret_target_tick_] with the current tick, a pointer choice resets
    it to 0. *)
Theorem C3_auto_priority (e : Env) (s : t) :
  tracking_mode_ s = Auto ->
  end_ignore_inputs_until_ s <= now e ->
  end_alignment_active_ s = false ->
  chosen_target e s = auto_choice e s
  /\ last_caret_target_tick_ (fst (resolve_target e s)) = auto_caret_tick e s.
Proof.
  intros Hm Hi Ha.
  destruct (resolve_target_unsuppressed e s Hi Ha) as (s1 & Hr & Hc & Ht).
  destruct (auto_choice_core e s1 s Hc Ht) as [<- <-].
  unfold chosen_target. rewrite Hr.
  apply select_target_auto; try reflexivity.
  core_eqs Hc. congruence.
Qed.

(** C3 at a stale caret and a pointer moved 10 ms ago. *)
Lemma C3_auto_priority_witness :
  chosen_target (env_1080p 5010) auto_pointer_state
  = auto_choice (env_1080p 5010) auto_pointer_state
  /\ last_caret_target_tick_ (fst (resolve_target (env_1080p 5010) auto_pointer_state))
     = auto_caret_tick (env_1080p 5010) auto_pointer_state.
Proof.
  apply (C3_auto_priority (env_1080p 5010) auto_pointer_state); evaluate.
Defined.

(** C3 as stated fails: the caret was reported at tick 1000 and followed at
    tick 1100, the pointer moved at tick 1150; at tick 1166 the pointer is
    fresh and newer than both the last caret-driven center and the caret
    signal, so the stated rule chooses the pointer, but the resolution
    chooses the caret. *)
Lemma C3_fresh_caret_beats_newer_pointer :
  mouse_fresh (env_1080p 1166) auto_pointer_after_caret_state = true
  /\ caret_superseded auto_pointer_after_caret_state = true
  /\ spec_auto_choice (env_1080p 1166) auto_pointer_after_caret_state = ChoosePointer
  /\ chosen_target (env_1080p 1166) auto_pointer_after_caret_state
     = Some (caret_target (mkFloatPoint (F32.of_Z 700) (F32.of_Z 500)), true).
Proof. vm_compute. auto. Qed.

(** C5, as amended. After a left click that maps to the source point [C] at
    tick [T], and for as long as the click-lock members are untouched, a
    resolution at tick [now] with the End key up, no terminal alignment and
    no messenger zone puts the center as follows, [L] being
    [50 * (elapsed_ms / 1000)] in binary32. With no center established, the
    adopted target (the chosen one, or the frame middle) is clamped into the
    click box around [C] and then into the frame. With a center
    established and a non-caret target outside the dead zone, the smoothed
    candidate is clamped into the click box and then into the frame, and
    the lock stays armed. The click box gives [C] itself when [L <= 0];
    otherwise, for a numeric candidate and a well-formed box
    [C - L <= C + L], a point within [L] of [C] along each axis. *)
Theorem C5_click_limit_box (e : Env) (s0 s : t) (T : Z)
  (is_messenger : bool) (pt : POINT) (C : FloatPoint) :
  ScreenToSource (source_monitor e) s0 pt = Some C ->
  click_state s
  = click_state (OnMouseLeftClick (source_monitor e) T is_messenger pt s0) ->
  0 <= source_index_ s ->
  Width (frame_desc e) <> 0 -> Height (frame_desc e) <> 0 ->
  end_key_down_ s = false -> end_alignment_active_ s = false ->
  messenger_zone_active_ s = false ->
  let d := view_dims (frame_desc e) (zoom_ s) in
  let L := click_limit (now e) T in
  let s' := UpdateViewState e s in
  click_lock_active_ s = true
  /\ (has_center_ s = false ->
      center s' = clamped d (limited C L (adopted_target e s)))
  /\ (forall p, has_center_ s = true ->
      chosen_target e s = Some (p, false) -> in_dead_zone p s = false ->
      center s' = clamped d (limited C L (smoothed p s))
      /\ click_state s' = click_state s)
  /\ (forall q, F32.leb L zero = true -> limited C L q = (fx C, fy C))
  /\ (forall q, F32.leb L zero = false ->
      is_nan (fst q) = false -> is_nan (snd q) = false ->
      F32.leb (F32.sub (fx C) L) (F32.add (fx C) L) = true ->
      F32.leb (F32.sub (fy C) L) (F32.add (fy C) L) = true ->
      F32.leb (F32.sub (fx C) L) (fst (limited C L q)) = true
      /\ F32.leb (fst (limited C L q)) (F32.add (fx C) L) = true
      /\ F32.leb (F32.sub (fy C) L) (snd (limited C L q)) = true
      /\ F32.leb (snd (limited C L q)) (F32.add (fy C) L) = true).
Proof.
  intros HC Hs Hidx HW HH Hk Ha Hz d L s'.
  rewrite OnMouseLeftClick_click_state, HC in Hs.
  split; [unfold click_state in Hs; congruence|].
  split; [|split; [|split]].
  - intros Hc.
    exact (proj2 (first_snap_center e s Hidx HW HH Hk Ha Hz Hc) C T Hs).
  - intros p Hc Ht Hdz.
    exact (proj2 (smoothed_step_center e s Hidx HW HH Hk Ha Hz p Hc Ht Hdz) C T Hs).
  - intros q HL. unfold limited. rewrite HL. reflexivity.
  - intros q HL Hx Hy Hbx Hby. unfold limited. rewrite HL. cbn [fst snd].
    destruct (clamp_bounds (fst q) _ _ Hbx Hx).
    destruct (clamp_bounds (snd q) _ _ Hby Hy). auto.
Qed.

(** C5 for the pointer resting on the click point (100, 100), 16 ms after
    the click, the center coming from (960, 540). *)
Lemma C5_click_limit_box_witness :
  center (UpdateViewState (env_1080p 1016) click_and_track_state)
  = clamped (view_dims (mkDesc 1920 1080) (F32.of_Z 2))
      (limited (mkFloatPoint (F32.of_Z 100) (F32.of_Z 100)) (click_limit 1016 1000)
         (smoothed (mkFloatPoint (F32.of_Z 100) (F32.of_Z 100)) click_and_track_state))
  /\ F32.leb (fst (limited (mkFloatPoint (F32.of_Z 100) (F32.of_Z 100))
                     (click_limit 1016 1000) (F32.of_Z 573, F32.of_Z 342)))
             (F32.add (F32.of_Z 100) (click_limit 1016 1000)) = true.
Proof.
  pose (s0 := MouseCallback 990 (mkPOINT 100 100)
                (with_center 960 540 (initial Mouse (F32.of_Z 2)))).
  pose (C := mkFloatPoint (F32.of_Z 100) (F32.of_Z 100)).
  assert (H1 : ScreenToSource (source_monitor (env_1080p 1016)) s0 (mkPOINT 100 100)
               = Some C) by evaluate.
  assert (H2 : click_state click_and_track_state
               = click_state (OnMouseLeftClick (source_monitor (env_1080p 1016))
                                1000 false (mkPOINT 100 100) s0)) by evaluate.
  assert (H3 : 0 <= source_index_ click_and_track_state) by evaluate.
  assert (H4 : Width (frame_desc (env_1080p 1016)) <> 0) by evaluate.
  assert (H5 : Height (frame_desc (env_1080p 1016)) <> 0) by evaluate.
  assert (H6 : end_key_down_ click_and_track_state = false) by evaluate.
  assert (H7 : end_alignment_active_ click_and_track_state = false) by evaluate.
  assert (H8 : messenger_zone_active_ click_and_track_state = false) by evaluate.
  destruct (C5_click_limit_box (env_1080p 1016) s0 click_and_track_state 1000 false
              (mkPOINT 100 100) C H1 H2 H3 H4 H5 H6 H7 H8)
    as (_ & _ & Hsm & _ & Hbox).
  split.
  - apply (Hsm C); evaluate.
  - apply (Hbox (F32.of_Z 573, F32.of_Z 342)); evaluate.
Defined.

(** C5 as stated fails: in Manual mode with the center at (960, 540), a left
    click at (100, 100) at tick 1000 arms the click-lock; the resolution at
    tick 1016 keeps the lock and holds the center at (960, 540), which is
    not within [100 + L] of the click, [L] being 0.8 pixels. *)
Lemma C5_held_center_is_outside_the_click_box :
  click_state clicked_state
  = (true, true, Some (mkFloatPoint (F32.of_Z 100) (F32.of_Z 100)), 1000)
  /\ click_lock_active_ (UpdateViewState (env_1080p 1016) clicked_state) = true
  /\ center (UpdateViewState (env_1080p 1016) clicked_state)
     = (F32.of_Z 960, F32.of_Z 540)
  /\ F32.leb (F32.of_Z 960) (F32.add (F32.of_Z 100) (click_limit 1016 1000)) = false.
Proof. vm_compute. auto. Qed.

(** C6, as amended. With an established center that needs no clamping
    (it lies inside the frame range and inside the messenger zone, when one
    is active), the End key up and no terminal alignment, if two
    resolutions in a row choose the same non-caret target [p] and [p] lies
    within the dead zone ([sqrt(dx^2 + dy^2) <= dead_zone_pixels_], 16 by
    default) of the current center, then the center after the first and
    after the second resolution is the center they started from. *)
Theorem C6_dead_zone_idempotent (e1 e2 : Env) (s : t) (p : FloatPoint) :
  0 <= source_index_ s ->
  Width (frame_desc e1) <> 0 -> Height (frame_desc e1) <> 0 ->
  frame_desc e2 = frame_desc e1 ->
  has_center_ s = true ->
  end_key_down_ s = false -> end_alignment_active_ s = false ->
  center_valid (view_dims (frame_desc e1) (zoom_ s)) s = true ->
  chosen_target e1 s = Some (p, false) ->
  chosen_target e2 (UpdateViewState e1 s) = Some (p, false) ->
  in_dead_zone p s = true ->
  center (UpdateViewState e1 s) = center s
  /\ center (UpdateViewState e2 (UpdateViewState e1 s)) = center s.
Proof.
  intros Hidx HW HH Hd Hc Hk Ha Hv Ht1 Ht2 Hz.
  destruct (dead_zone_step e1 s p Hidx HW HH Hc Hk Ha Hv Ht1 Hz) as (H1 & H2 & H3).
  split; [exact H1|].
  pose proof H2 as H2'. steady_eqs H2'.
  destruct (dead_zone_step e2 (UpdateViewState e1 s) p) as (Hstep2 & _ & _);
    try congruence.
  all: try (rewrite Hd; congruence).
  all: try (rewrite (in_dead_zone_center p s _ H1 H2); exact Hz).
  all: try (rewrite Hstep2; reflexivity).

Qed.

(** C6 with the pointer resting 5 pixels right of and below the center. *)
Lemma C6_dead_zone_idempotent_witness :
  center (UpdateViewState (env_1080p 1010) dead_zone_state) = center dead_zone_state
  /\ center (UpdateViewState (env_1080p 1026)
               (UpdateViewState (env_1080p 1010) dead_zone_state))
     = center dead_zone_state.
Proof.
  apply (C6_dead_zone_idempotent (env_1080p 1010) (env_1080p 1026) dead_zone_state
           (mkFloatPoint (F32.of_Z 965) (F32.of_Z 545))); evaluate.
Defined.

(** C6 as stated fails: in Mouse mode at zoom 8 the center is established
    at (300, 980), inside the frame range; the pointer rests 5 pixels away
    at (305, 985), inside the dead zone, and a left click there arms the
    messenger zone. The first resolution moves the center to (480, 980),
    the left edge of the zone; the second, with the same target, moves it
    again. *)
Lemma C6_reply_strip_clamp_moves_the_center :
  (has_center_ reply_strip_state, end_key_down_ reply_strip_state,
   end_alignment_active_ reply_strip_state) = (true, false, false)
  /\ center reply_strip_state = (F32.of_Z 300, F32.of_Z 980)
  /\ point_in_frame (view_dims (mkDesc 1920 1080) (zoom_ reply_strip_state))
       (F32.of_Z 300) (F32.of_Z 980) = true
  /\ chosen_target (env_1080p 1010) reply_strip_state
     = Some (mkFloatPoint (F32.of_Z 305) (F32.of_Z 985), false)
  /\ in_dead_zone (mkFloatPoint (F32.of_Z 305) (F32.of_Z 985)) reply_strip_state = true
  /\ center (UpdateViewState (env_1080p 1010) reply_strip_state)
     = (F32.of_Z 480, F32.of_Z 980)
  /\ chosen_target (env_1080p 1026) (UpdateViewState (env_1080p 1010) reply_strip_state)
     = Some (mkFloatPoint (F32.of_Z 305) (F32.of_Z 985), false)
  /\ center (UpdateViewState (env_1080p 1026)
               (UpdateViewState (env_1080p 1010) reply_strip_state))
     <> center reply_strip_state.
Proof. vm_compute. repeat split; try reflexivity. discriminate. Qed.

(** C7, as amended. With an established center, no positional signal fresh
    enough for the active mode and no special anchor (End key up, no
    alignment, no messenger zone), one resolution only clamps the previous
    center into the frame: it is unchanged whenever it needs no clamping.
    The output [ViewState] is the crop around that center, the zoom [zoom_],
    the cursor overlay at the pointer and the inversion flag. *)
Theorem C7_hold_center (e : Env) (s : t) :
  0 <= source_index_ s ->
  Width (frame_desc e) <> 0 -> Height (frame_desc e) <> 0 ->
  has_center_ s = true ->
  signal_fresh e s = false ->
  end_key_down_ s = false -> end_alignment_active_ s = false ->
  messenger_zone_active_ s = false ->
  let d := view_dims (frame_desc e) (zoom_ s) in
  let s' := UpdateViewState e s in
  current_center_x_ s'
    = F32.clamp (current_center_x_ s) (half_w d) (F32.sub (frame_width d) (half_w d))
  /\ current_center_y_ s'
    = F32.clamp (current_center_y_ s) (half_h d) (F32.sub (frame_height d) (half_h d))
  /\ (point_in_frame d (current_center_x_ s) (current_center_y_ s) = true ->
      center s' = center s)
  /\ has_center_ s' = true
  /\ view_state_ s'
     = mkViewState (region_of d s') (zoom_ s)
                   (fst (fst (cursor_overlay e s))) (invert_colors_ s)
                   (snd (fst (cursor_overlay e s))) (snd (cursor_overlay e s)).
Proof.
  intros Hidx HW HH Hc Hf Hk Ha Hz d s'.
  assert (Hs' : s' = let '(s2, l) := resolve_target e s in adopt_target e l s2).
  { subst s'. unfold UpdateViewState.
    destruct (source_index_ s <? 0) eqn:E; [apply Z.ltb_lt in E; lia|].
    apply Z.eqb_neq in HW, HH. rewrite HW, HH. reflexivity. }
  pose proof (resolve_target_core e s) as Hcore.
  pose proof (resolve_target_stale e s Hf) as Hl.
  pose proof (resolve_target_view e s) as Hview.
  destruct (resolve_target e s) as [s2 l]. fields. core_eqs Hcore.
  cbv zeta in Hview. destruct Hview as [Hcur Hinv].
  assert (Hadopt : s' = region_stage d (frame_clamp_stage d s2)).
  { rewrite Hs', adopt_target_no_anchor by congruence.
    replace (zoom_ s2) with (zoom_ s) by congruence. fold d. cbv zeta.
    rewrite center_stage_hold, messenger_stage_inactive by congruence.
    reflexivity. }
  assert (Hx : current_center_x_ s'
     = F32.clamp (current_center_x_ s) (half_w d) (F32.sub (frame_width d) (half_w d))).
  { rewrite Hadopt. unfold region_stage, frame_clamp_stage. fields. congruence. }
  assert (Hy : current_center_y_ s'
     = F32.clamp (current_center_y_ s) (half_h d) (F32.sub (frame_height d) (half_h d))).
  { rewrite Hadopt. unfold region_stage, frame_clamp_stage. fields. congruence. }
  split; [exact Hx|]. split; [exact Hy|]. split; [|split].
  - intros Hin. apply point_in_frame_clamp in Hin as [Hcx Hcy].
    unfold center. rewrite Hx, Hy, Hcx, Hcy. reflexivity.
  - rewrite Hadopt. unfold region_stage, frame_clamp_stage. fields. congruence.
  - rewrite <- Hcur. cbn [fst snd].
    rewrite Hadopt at 1. unfold region_stage. fields.
    replace (region_of d s') with (region_of d (frame_clamp_stage d s2))
      by (rewrite Hadopt; unfold region_of, region_stage; fields; reflexivity).
    unfold frame_clamp_stage at 2 3 4 5 6. fields.
    congruence.
Qed.

(** C7 in Manual mode with the center in the middle of the frame. *)
Lemma C7_hold_center_witness :
  center (UpdateViewState (env_1080p 1000) manual_state) = center manual_state.
Proof.
  refine (proj1 (proj2 (proj2
    (C7_hold_center (env_1080p 1000) manual_state _ _ _ _ _ _ _ _))) _);
    evaluate.
Defined.

(** C7 as stated fails: in Manual mode, after a zoom step has cleared
    [has_center_], no signal is fresh and no anchor is active, yet the
    resolution moves the center from (700, 400) to the frame middle
    (960, 540). *)
Lemma C7_recentres_when_no_center_is_established :
  signal_fresh (env_1080p 1000) zoomed_manual_state = false
  /\ (end_key_down_ zoomed_manual_state, end_alignment_active_ zoomed_manual_state,
      messenger_zone_active_ zoomed_manual_state) = (false, false, false)
  /\ center zoomed_manual_state = (F32.of_Z 700, F32.of_Z 400)
  /\ center (UpdateViewState (env_1080p 1000) zoomed_manual_state)
     = (F32.of_Z 960, F32.of_Z 540).
Proof. vm_compute. auto. Qed.




End TrackerFacts.

(* ------------------------------------------------------------------ *)
(** ** Compositor: the cursor glyph *)

Module CompositorFacts.
Import MagnifierWindow.

(** C8, as amended. [DrawCursor] draws the glyph exactly when the cursor
    texture is ready, the crop has positive extent, the cursor position (the
    hotspot point) lies inside the closed crop rectangle and the scaled
    glyph quad is not entirely outside the window; the quad is the cursor
    position relative to the crop minus the hotspot, scaled by window size
    over crop size. A cursor position outside the crop skips the glyph even
    when the glyph overlaps the crop. *)
Theorem C8_draw_cursor (w : t) (state : ViewState) :
  (forall q, DrawCursor w state = Some q <->
     cursor_ready w = true
     /\ F32.leb (crop_width state) App.zero = false
     /\ F32.leb (crop_height state) App.zero = false
     /\ cursor_in_crop state = true
     /\ quad_on_window w (cursor_quad w state) = true
     /\ q = cursor_quad w state)
  /\ (cursor_in_crop state = false -> DrawCursor w state = None)
  /\ (quad_on_window w (cursor_quad w state) = false -> DrawCursor w state = None).
Proof.
  unfold DrawCursor, cursor_ready, cursor_in_crop, quad_on_window, cursor_quad,
    crop_width, crop_height.
  cbn [left_px top_px right_px bottom_px].
  rewrite <- !negb_orb, <- !negb_andb.
  set (vw := F32.of_Z (wrap32 (right (source_region state) - left (source_region state)))).
  set (vh := F32.of_Z (wrap32 (bottom (source_region state) - top (source_region state)))).
  destruct (cursor_visible_ w), (cursor_srv_ w), (pointer_vertex_buffer_ w);
    cbn [negb andb orb];
    try (repeat split; intros; try discriminate; try tauto;
         match goal with H : _ /\ _ |- _ => destruct H as [H _]; discriminate end).
  destruct (F32.leb vw App.zero), (F32.leb vh App.zero); cbn [negb andb orb];
    try (repeat split; intros; try discriminate; try tauto;
         match goal with H : _ /\ _ |- _ => decompose [and] H; discriminate end).
  match goal with |- context [if ?c then None else _] => destruct c eqn:E1 end;
    cbn [negb andb orb];
    try (repeat split; intros; try discriminate; try tauto;
         match goal with H : _ /\ _ |- _ => decompose [and] H; discriminate end).
  match goal with |- context [if ?c then None else _] => destruct c eqn:E2 end;
    cbn [negb andb orb].
  - repeat split; intros; try discriminate; try tauto.
    decompose [and] H; discriminate.
  - repeat split; intros; try discriminate; try tauto.
    + congruence.
    + decompose [and] H. congruence.
Qed.

(** C8 for the pointer in the middle of the crop. *)
Lemma C8_draw_cursor_witness :
  DrawCursor arrow_cursor (view_with_cursor_at 580)
  = Some (cursor_quad arrow_cursor (view_with_cursor_at 580)).
Proof.
  apply (proj1 (C8_draw_cursor arrow_cursor (view_with_cursor_at 580))).
  vm_compute. auto 10.
Defined.

(** C8 as stated fails: with the crop starting at column 100 and the arrow
    (32x32, hotspot at its corner) at column 99, the glyph covers columns
    99 to 131 and overlaps the crop, yet it is skipped. *)
Lemma C8_overlapping_glyph_is_skipped :
  glyph_outside_crop arrow_cursor (view_with_cursor_at 99) = false
  /\ DrawCursor arrow_cursor (view_with_cursor_at 99) = None.
Proof. vm_compute. auto. Qed.

End CompositorFacts.

(* ------------------------------------------------------------------ *)
(** ** Selected text *)

Module SelectionFacts.
Import TrackingManager.
Local Open Scope nat_scope.

Lemma truncate_length text : List.length (truncate text) <= kMaxSelectionLength.
Proof. apply firstn_le_length. Qed.

Lemma truncate_short text :
  List.length text <= kMaxSelectionLength -> truncate text = text.
Proof. apply firstn_all2. Qed.

Lemma truncate_app text rest :
  kMaxSelectionLength <= List.length text ->
  truncate (text ++ rest) = truncate text.
Proof.
  intros H. unfold truncate. rewrite firstn_app.
  replace (kMaxSelectionLength - List.length text) with 0 by lia.
  cbn [firstn]. apply app_nil_r.
Qed.

(** After the first character the loop appends a newline and the text. *)
Lemma collect_nonempty ranges : forall collected,
  collected <> [] -> List.length collected < kMaxSelectionLength ->
  collect ranges collected
  = let joined := collected ++ List.concat (map (cons newline) (selected_texts ranges)) in
    if kMaxSelectionLength <=? List.length joined then inl (truncate joined)
    else inr joined.
Proof.
  induction ranges as [|r rest IH]; intros collected Hne Hlen; cbn [collect selected_texts map List.concat].
  - cbv zeta. rewrite app_nil_r.
    destruct (Nat.leb_spec kMaxSelectionLength (List.length collected)); [lia|reflexivity].
  - destruct r as [[text|]|]; try (apply IH; assumption).
    cbn [map List.concat]. cbv zeta.
    destruct collected as [|c0 cs] eqn:Ec; [congruence|]. rewrite <- Ec in *.
    set (next := (collected ++ [newline]) ++ text).
    assert (Hnext : collected ++ (newline :: text) ++ List.concat (map (cons newline) (selected_texts rest))
                    = next ++ List.concat (map (cons newline) (selected_texts rest))).
    { subst next. rewrite <- !app_assoc. reflexivity. }
    rewrite Hnext.
    destruct (Nat.leb_spec kMaxSelectionLength (List.length next)) as [Hge|Hlt].
    + rewrite truncate_app by exact Hge.
      destruct (Nat.leb_spec kMaxSelectionLength
                  (List.length (next ++ List.concat (map (cons newline) (selected_texts rest)))))
        as [_|Hc]; [reflexivity|].
      rewrite length_app in Hc. lia.
    + apply IH; [|exact Hlt].
      subst next. rewrite Ec. discriminate.
Qed.

Lemma drop_empty_cons text rest :
  text <> [] -> drop_empty (text :: rest) = text :: rest.
Proof. destruct text; [congruence | reflexivity]. Qed.

Lemma collect_spec ranges :
  collect ranges []
  = let joined := join_lines (drop_empty (selected_texts ranges)) in
    if kMaxSelectionLength <=? List.length joined then inl (truncate joined)
    else inr joined.
Proof.
  induction ranges as [|r rest IH]; cbn [collect selected_texts].
  - reflexivity.
  - destruct r as [[text|]|]; try exact IH.
    cbn [app]. destruct (list_eq_dec Z.eq_dec text []) as [->|Hne].
    + cbn [List.length drop_empty]. exact IH.
    + rewrite drop_empty_cons by exact Hne. cbn [join_lines]. cbv zeta.
      destruct (Nat.leb_spec kMaxSelectionLength (List.length text)) as [Hge|Hlt].
      * rewrite truncate_app by exact Hge.
        destruct (Nat.leb_spec kMaxSelectionLength
                    (List.length (text ++ List.concat (map (cons newline) (selected_texts rest)))))
          as [_|Hc]; [reflexivity|].
        rewrite length_app in Hc. lia.
      * apply collect_nonempty; [exact Hne | exact Hlt].
Qed.

Lemma value_text_spec e :
  value_text e
  = truncate (match value e with Some (Some text) => text | _ => [] end).
Proof.
  unfold value_text. destruct (value e) as [[text|]|]; try reflexivity.
  destruct (Nat.ltb_spec kMaxSelectionLength (List.length text)); [reflexivity|].
  symmetry. apply truncate_short. assumption.
Qed.

(** C9. [GetSelectedText] returns at most 4096 characters. Without the
    automation object or a focused element it returns the empty string.
    Otherwise it returns the texts of the selection ranges joined by
    newlines (leading empty texts dropped) and cut at 4096 characters, or,
    when that text is empty or there is no selection, the value of the
    element cut at 4096 characters, or the empty string. *)
Theorem C9_selected_text_bounded (m : t) :
  List.length (GetSelectedText m) <= kMaxSelectionLength
  /\ (automation_ m = false \/ focused m = None -> GetSelectedText m = [])
  /\ (forall e, automation_ m = true -> focused m = Some e ->
        GetSelectedText m
        = match selection_text e with
          | [] => truncate (element_value e)
          | joined => truncate joined
          end).
Proof.
  assert (Hmain : forall e, automation_ m = true -> focused m = Some e ->
            GetSelectedText m
            = match selection_text e with
              | [] => truncate (element_value e)
              | joined => truncate joined
              end).
  { intros e Ha Hf. unfold GetSelectedText, selection_text, element_value.
    rewrite Ha, Hf. cbn [negb]. rewrite value_text_spec.
    destruct (text_selection e) as [[ranges|]|]; try reflexivity.
    rewrite collect_spec. cbv zeta.
    set (joined := join_lines (drop_empty (selected_texts ranges))).
    destruct (Nat.leb_spec kMaxSelectionLength (List.length joined)) as [Hge|Hlt].
    - destruct joined; [|reflexivity]. cbn [List.length] in Hge.
      unfold kMaxSelectionLength in Hge. lia.
    - destruct joined as [|c cs] eqn:Ej; [reflexivity|].
      rewrite truncate_short by lia. reflexivity. }
  split; [|split].
  - destruct (automation_ m) eqn:Ha; [|unfold GetSelectedText; rewrite Ha; cbn; lia].
    destruct (focused m) as [e|] eqn:Hf;
      [|unfold GetSelectedText; rewrite Ha, Hf; cbn; lia].
    rewrite (Hmain e eq_refl eq_refl).
    destruct (selection_text e); apply truncate_length.
  - intros [Ha|Hf]; unfold GetSelectedText.
    + rewrite Ha. reflexivity.
    + rewrite Hf. destruct (automation_ m); reflexivity.
  - exact Hmain.
Qed.

(** C9 for a selection of two ranges, "ab" and "c". *)
Lemma C9_selected_text_bounded_witness :
  GetSelectedText two_range_selection = [97%Z; 98%Z; 10%Z; 99%Z].
Proof.
  rewrite (proj2 (proj2 (C9_selected_text_bounded two_range_selection))
             two_range_element eq_refl eq_refl).
  reflexivity.
Defined.

End SelectionFacts.
